(** * The drag-gesture recognizer of the Ubuntu UI toolkit

    A shallow embedding of [ucdraggesture.cpp] (classes [Direction],
    [UCDragGesture], [UCDragGesturePrivate] and [ActiveTouchesInfo]) and of
    the collaborators it calls into ([Pool], [DampedPointF], the recognition
    timer and the [TouchRegistry] broker), followed by the properties the
    specification states about them.

    Conventions.
    - [qreal] is an IEEE 754 binary64 value: Rocq's primitive [float], with
      the comparisons of C++ ([==] is [=?], so a NaN differs from itself).
    - [int] and [qint64] are [Z]; the one 64-bit addition of the file is
      written with its wrap-around ([wrap64]).
    - A member function that mutates the recognizer is an [Action]: it takes
      the object and returns the object and the effects it produced, in
      order (signals emitted, calls into the broker, diagnostics, what it
      did with the event).
    - The clock ([timeSource->msecsSinceReference()]) is read once per
      delivered event and passed as [now]. *)

From Stdlib Require Import ZArith List Bool Lia Floats.
Import ListNotations.

Local Open Scope Z_scope.

(** ** Numbers *)

Definition qreal := float.

(** [qAbs(t)] is [t >= 0 ? t : -t]. *)
Definition qAbs (t : qreal) : qreal :=
  if (0 <=? t)%float then t else (- t)%float.

(** [a != b] on doubles. *)
Definition qneq (a b : qreal) : bool := negb (a =? b)%float.

Definition wrap64 (z : Z) : Z := (z + 2 ^ 63) mod 2 ^ 64 - 2 ^ 63.

(** ** Geometry and touch events *)

Record QPointF := mkPoint { px : qreal; py : qreal }.

Arguments mkPoint (px py)%_float_scope.

Definition origin : QPointF := mkPoint 0%float 0%float.

Definition psub (a b : QPointF) : QPointF :=
  mkPoint (px a - px b)%float (py a - py b)%float.

Inductive TouchPointState :=
| TouchPointPressed
| TouchPointMoved
| TouchPointStationary
| TouchPointReleased.

Definition isPressed (s : TouchPointState) : bool :=
  match s with TouchPointPressed => true | _ => false end.

Definition isReleased (s : TouchPointState) : bool :=
  match s with TouchPointReleased => true | _ => false end.

Record TouchPoint := mkTouchPoint {
  tp_id : Z;
  tp_state : TouchPointState;
  tp_pos : QPointF;
  tp_scenePos : QPointF
}.

(** A [QTouchEvent] is its list of touch points; [touchPointStates()] is the
    union of their states. *)
Definition QTouchEvent := list TouchPoint.

Definition hasPressed (ev : QTouchEvent) : bool :=
  existsb (fun tp => isPressed (tp_state tp)) ev.

Definition hasPressedOrReleased (ev : QTouchEvent) : bool :=
  existsb (fun tp => isPressed (tp_state tp) || isReleased (tp_state tp)) ev.

(** ** Enumerations *)

Inductive Status := WaitingForTouch | Undecided | Recognized.

Definition Status_eqb (a b : Status) : bool :=
  match a, b with
  | WaitingForTouch, WaitingForTouch => true
  | Undecided, Undecided => true
  | Recognized, Recognized => true
  | _, _ => false
  end.

Inductive Direction :=
| Rightwards | Leftwards | Downwards | Upwards | Horizontal | Vertical.

Module DirectionClass.

Definition isHorizontal (type : Direction) : bool :=
  match type with
  | Leftwards | Rightwards | Horizontal => true
  | _ => false
  end.

Definition isVertical (type : Direction) : bool :=
  match type with
  | Upwards | Downwards | Vertical => true
  | _ => false
  end.

Definition isPositive (type : Direction) : bool :=
  match type with
  | Rightwards | Downwards | Horizontal | Vertical => true
  | _ => false
  end.

End DirectionClass.

(** The four directions with a polarity; [Horizontal] and [Vertical] are the
    symmetric ones. *)
Definition isSigned (type : Direction) : bool :=
  match type with
  | Horizontal | Vertical => false
  | _ => true
  end.

(** ** The pool of active touches *)

Record ActiveTouchInfo := mkActiveTouchInfo {
  ati_id : Z;
  startTime : Z
}.

(** Modelled from the spec: [Pool] (Pool.h is not among the sources). A pool
    of fixed capacity, one [option] per slot; [getEmptySlot] takes the first
    free slot and does nothing when the pool is exhausted, [freeSlot] empties
    a slot, [forEach] visits the occupied slots in order until the callback
    answers [false]. *)
Module Pool.

Definition t := list (option ActiveTouchInfo).

Definition create (capacity : nat) : t := repeat None capacity.

Fixpoint isEmpty (p : t) : bool :=
  match p with
  | [] => true
  | None :: rest => isEmpty rest
  | Some _ :: _ => false
  end.

Fixpoint getEmptySlot (p : t) (v : ActiveTouchInfo) : t :=
  match p with
  | [] => []
  | None :: rest => Some v :: rest
  | Some x :: rest => Some x :: getEmptySlot rest v
  end.

Fixpoint forEach {S : Type} (f : ActiveTouchInfo -> S -> S * bool)
         (p : t) (acc : S) : S :=
  match p with
  | [] => acc
  | None :: rest => forEach f rest acc
  | Some x :: rest =>
      let (acc', continue) := f x acc in
      if continue then forEach f rest acc' else acc'
  end.

(** The occupied slots, in slot order. *)
Fixpoint records (p : t) : list ActiveTouchInfo :=
  match p with
  | [] => []
  | None :: rest => records rest
  | Some x :: rest => x :: records rest
  end.

End Pool.

Module ActiveTouchesInfo.

Definition t := Pool.t.

Definition isEmpty (a : t) : bool := Pool.isEmpty a.

Definition addTouchPoint (now : Z) (touchId : Z) (a : t) : t :=
  Pool.getEmptySlot a (mkActiveTouchInfo touchId now).

(** [forEach] with a callback that frees the first slot holding [touchId]
    and stops. *)
Fixpoint removeTouchPoint (touchId : Z) (a : t) : t :=
  match a with
  | [] => []
  | None :: rest => None :: removeTouchPoint touchId rest
  | Some x :: rest =>
      if touchId =? ati_id x then None :: rest
      else Some x :: removeTouchPoint touchId rest
  end.

(** [Q_ASSERT(result != -1)]: [None] when the assertion fails. *)
Definition touchStartTime (touchId : Z) (a : t) : option Z :=
  let result :=
    Pool.forEach (fun touchInfo result =>
                    if touchId =? ati_id touchInfo
                    then (startTime touchInfo, false)
                    else (result, true)) a (-1) in
  if result =? -1 then None else Some result.

(** [Q_ASSERT(!m_touchInfoPool.isEmpty())]: [None] when the assertion
    fails. *)
Definition mostRecentStartTime (a : t) : option Z :=
  if Pool.isEmpty a then None
  else
    Some (Pool.forEach (fun activeTouchInfo highestStartTime =>
                          if startTime activeTouchInfo >? highestStartTime
                          then (startTime activeTouchInfo, true)
                          else (highestStartTime, true)) a (-1)).

Fixpoint updatePoints (now : Z) (touchPoints : list TouchPoint) (a : t) : t :=
  match touchPoints with
  | [] => a
  | touchPoint :: rest =>
      let a' :=
        match tp_state touchPoint with
        | TouchPointPressed => addTouchPoint now (tp_id touchPoint) a
        | TouchPointReleased => removeTouchPoint (tp_id touchPoint) a
        | _ => a
        end in
      updatePoints now rest a'
  end.

Definition update (now : Z) (event : QTouchEvent) (a : t) : t :=
  if negb (hasPressedOrReleased event) then a
  else updatePoints now event a.

End ActiveTouchesInfo.

(** ** The damped position *)

(** Modelled from the spec: [DampedPointF] (Damper.h is not among the
    sources). [reset] stores the value as it is; [update] moves each
    coordinate toward the raw one by at most [maxDelta]. *)
Module DampedPointF.

Record t := mk { x : qreal; y : qreal; maxDelta : qreal }.

Definition setMaxDelta (d : qreal) (p : t) : t := mk (x p) (y p) d.

Definition reset (v : QPointF) (p : t) : t := mk (px v) (py v) (maxDelta p).

Definition update1 (current raw limit : qreal) : qreal :=
  let delta := (raw - current)%float in
  if (limit <? delta)%float then (current + limit)%float
  else if (delta <? - limit)%float then (current - limit)%float
  else raw.

Definition update (raw : QPointF) (p : t) : t :=
  mk (update1 (x p) (px raw) (maxDelta p))
     (update1 (y p) (py raw) (maxDelta p))
     (maxDelta p).

End DampedPointF.

(** ** The recognizer object

    [UCDragGesturePrivate] with the part of its [QQuickItem] ([q]) that the
    code reads: whether the item is enabled and visible, and its transform
    to scene coordinates. The recognition timer is kept as its running flag
    and its interval. *)

Record UCDragGesturePrivate := mkPrivate {
  q_enabled : bool;  (* [q->isEnabled()] *)
  q_visible : bool;  (* [q->isVisible()] *)
  q_mapToScene : QPointF -> QPointF;  (* [q->mapToScene] *)
  status : Status;
  sceneDistance : qreal;
  touchId : Z;
  direction : Direction;
  distanceThreshold : qreal;
  distanceThresholdSquared : qreal;
  maxDistance : qreal;
  maxTime : Z;
  compositionTime : Z;
  immediateRecognition : bool;
  recognitionTimerRunning : bool;  (* [recognitionTimer->isRunning()] *)
  recognitionTimerInterval : Z;  (* [recognitionTimer->interval()] *)
  activeTouches : ActiveTouchesInfo.t;
  startPos : QPointF;
  startScenePos : QPointF;
  dampedScenePos : DampedPointF.t;
  previousDampedScenePos : QPointF;
  publicPos : QPointF;
  publicScenePos : QPointF;
  sceneDirectionVector : QPointF
}.

Definition set_q_enabled (v : bool) (d : UCDragGesturePrivate) : UCDragGesturePrivate :=
  mkPrivate
    v (q_visible d) (q_mapToScene d) (status d) (sceneDistance d) (touchId d)
    (direction d) (distanceThreshold d) (distanceThresholdSquared d)
    (maxDistance d) (maxTime d) (compositionTime d) (immediateRecognition d)
    (recognitionTimerRunning d) (recognitionTimerInterval d) (activeTouches d)
    (startPos d) (startScenePos d) (dampedScenePos d)
    (previousDampedScenePos d) (publicPos d) (publicScenePos d)
    (sceneDirectionVector d).

Definition set_q_visible (v : bool) (d : UCDragGesturePrivate) : UCDragGesturePrivate :=
  mkPrivate
    (q_enabled d) v (q_mapToScene d) (status d) (sceneDistance d) (touchId d)
    (direction d) (distanceThreshold d) (distanceThresholdSquared d)
    (maxDistance d) (maxTime d) (compositionTime d) (immediateRecognition d)
    (recognitionTimerRunning d) (recognitionTimerInterval d) (activeTouches d)
    (startPos d) (startScenePos d) (dampedScenePos d)
    (previousDampedScenePos d) (publicPos d) (publicScenePos d)
    (sceneDirectionVector d).

Definition set_q_mapToScene (v : QPointF -> QPointF) (d : UCDragGesturePrivate) : UCDragGesturePrivate :=
  mkPrivate
    (q_enabled d) (q_visible d) v (status d) (sceneDistance d) (touchId d)
    (direction d) (distanceThreshold d) (distanceThresholdSquared d)
    (maxDistance d) (maxTime d) (compositionTime d) (immediateRecognition d)
    (recognitionTimerRunning d) (recognitionTimerInterval d) (activeTouches d)
    (startPos d) (startScenePos d) (dampedScenePos d)
    (previousDampedScenePos d) (publicPos d) (publicScenePos d)
    (sceneDirectionVector d).

Definition set_status (v : Status) (d : UCDragGesturePrivate) : UCDragGesturePrivate :=
  mkPrivate
    (q_enabled d) (q_visible d) (q_mapToScene d) v (sceneDistance d)
    (touchId d) (direction d) (distanceThreshold d)
    (distanceThresholdSquared d) (maxDistance d) (maxTime d)
    (compositionTime d) (immediateRecognition d) (recognitionTimerRunning d)
    (recognitionTimerInterval d) (activeTouches d) (startPos d)
    (startScenePos d) (dampedScenePos d) (previousDampedScenePos d)
    (publicPos d) (publicScenePos d) (sceneDirectionVector d).

Definition set_sceneDistance (v : qreal) (d : UCDragGesturePrivate) : UCDragGesturePrivate :=
  mkPrivate
    (q_enabled d) (q_visible d) (q_mapToScene d) (status d) v (touchId d)
    (direction d) (distanceThreshold d) (distanceThresholdSquared d)
    (maxDistance d) (maxTime d) (compositionTime d) (immediateRecognition d)
    (recognitionTimerRunning d) (recognitionTimerInterval d) (activeTouches d)
    (startPos d) (startScenePos d) (dampedScenePos d)
    (previousDampedScenePos d) (publicPos d) (publicScenePos d)
    (sceneDirectionVector d).

Definition set_touchId (v : Z) (d : UCDragGesturePrivate) : UCDragGesturePrivate :=
  mkPrivate
    (q_enabled d) (q_visible d) (q_mapToScene d) (status d) (sceneDistance d)
    v (direction d) (distanceThreshold d) (distanceThresholdSquared d)
    (maxDistance d) (maxTime d) (compositionTime d) (immediateRecognition d)
    (recognitionTimerRunning d) (recognitionTimerInterval d) (activeTouches d)
    (startPos d) (startScenePos d) (dampedScenePos d)
    (previousDampedScenePos d) (publicPos d) (publicScenePos d)
    (sceneDirectionVector d).

Definition set_direction (v : Direction) (d : UCDragGesturePrivate) : UCDragGesturePrivate :=
  mkPrivate
    (q_enabled d) (q_visible d) (q_mapToScene d) (status d) (sceneDistance d)
    (touchId d) v (distanceThreshold d) (distanceThresholdSquared d)
    (maxDistance d) (maxTime d) (compositionTime d) (immediateRecognition d)
    (recognitionTimerRunning d) (recognitionTimerInterval d) (activeTouches d)
    (startPos d) (startScenePos d) (dampedScenePos d)
    (previousDampedScenePos d) (publicPos d) (publicScenePos d)
    (sceneDirectionVector d).

Definition set_distanceThreshold (v : qreal) (d : UCDragGesturePrivate) : UCDragGesturePrivate :=
  mkPrivate
    (q_enabled d) (q_visible d) (q_mapToScene d) (status d) (sceneDistance d)
    (touchId d) (direction d) v (distanceThresholdSquared d) (maxDistance d)
    (maxTime d) (compositionTime d) (immediateRecognition d)
    (recognitionTimerRunning d) (recognitionTimerInterval d) (activeTouches d)
    (startPos d) (startScenePos d) (dampedScenePos d)
    (previousDampedScenePos d) (publicPos d) (publicScenePos d)
    (sceneDirectionVector d).

Definition set_distanceThresholdSquared (v : qreal) (d : UCDragGesturePrivate) : UCDragGesturePrivate :=
  mkPrivate
    (q_enabled d) (q_visible d) (q_mapToScene d) (status d) (sceneDistance d)
    (touchId d) (direction d) (distanceThreshold d) v (maxDistance d)
    (maxTime d) (compositionTime d) (immediateRecognition d)
    (recognitionTimerRunning d) (recognitionTimerInterval d) (activeTouches d)
    (startPos d) (startScenePos d) (dampedScenePos d)
    (previousDampedScenePos d) (publicPos d) (publicScenePos d)
    (sceneDirectionVector d).

Definition set_maxDistance (v : qreal) (d : UCDragGesturePrivate) : UCDragGesturePrivate :=
  mkPrivate
    (q_enabled d) (q_visible d) (q_mapToScene d) (status d) (sceneDistance d)
    (touchId d) (direction d) (distanceThreshold d)
    (distanceThresholdSquared d) v (maxTime d) (compositionTime d)
    (immediateRecognition d) (recognitionTimerRunning d)
    (recognitionTimerInterval d) (activeTouches d) (startPos d)
    (startScenePos d) (dampedScenePos d) (previousDampedScenePos d)
    (publicPos d) (publicScenePos d) (sceneDirectionVector d).

Definition set_maxTime (v : Z) (d : UCDragGesturePrivate) : UCDragGesturePrivate :=
  mkPrivate
    (q_enabled d) (q_visible d) (q_mapToScene d) (status d) (sceneDistance d)
    (touchId d) (direction d) (distanceThreshold d)
    (distanceThresholdSquared d) (maxDistance d) v (compositionTime d)
    (immediateRecognition d) (recognitionTimerRunning d)
    (recognitionTimerInterval d) (activeTouches d) (startPos d)
    (startScenePos d) (dampedScenePos d) (previousDampedScenePos d)
    (publicPos d) (publicScenePos d) (sceneDirectionVector d).

Definition set_compositionTime (v : Z) (d : UCDragGesturePrivate) : UCDragGesturePrivate :=
  mkPrivate
    (q_enabled d) (q_visible d) (q_mapToScene d) (status d) (sceneDistance d)
    (touchId d) (direction d) (distanceThreshold d)
    (distanceThresholdSquared d) (maxDistance d) (maxTime d) v
    (immediateRecognition d) (recognitionTimerRunning d)
    (recognitionTimerInterval d) (activeTouches d) (startPos d)
    (startScenePos d) (dampedScenePos d) (previousDampedScenePos d)
    (publicPos d) (publicScenePos d) (sceneDirectionVector d).

Definition set_immediateRecognition (v : bool) (d : UCDragGesturePrivate) : UCDragGesturePrivate :=
  mkPrivate
    (q_enabled d) (q_visible d) (q_mapToScene d) (status d) (sceneDistance d)
    (touchId d) (direction d) (distanceThreshold d)
    (distanceThresholdSquared d) (maxDistance d) (maxTime d)
    (compositionTime d) v (recognitionTimerRunning d)
    (recognitionTimerInterval d) (activeTouches d) (startPos d)
    (startScenePos d) (dampedScenePos d) (previousDampedScenePos d)
    (publicPos d) (publicScenePos d) (sceneDirectionVector d).

Definition set_recognitionTimerRunning (v : bool) (d : UCDragGesturePrivate) : UCDragGesturePrivate :=
  mkPrivate
    (q_enabled d) (q_visible d) (q_mapToScene d) (status d) (sceneDistance d)
    (touchId d) (direction d) (distanceThreshold d)
    (distanceThresholdSquared d) (maxDistance d) (maxTime d)
    (compositionTime d) (immediateRecognition d) v
    (recognitionTimerInterval d) (activeTouches d) (startPos d)
    (startScenePos d) (dampedScenePos d) (previousDampedScenePos d)
    (publicPos d) (publicScenePos d) (sceneDirectionVector d).

Definition set_recognitionTimerInterval (v : Z) (d : UCDragGesturePrivate) : UCDragGesturePrivate :=
  mkPrivate
    (q_enabled d) (q_visible d) (q_mapToScene d) (status d) (sceneDistance d)
    (touchId d) (direction d) (distanceThreshold d)
    (distanceThresholdSquared d) (maxDistance d) (maxTime d)
    (compositionTime d) (immediateRecognition d) (recognitionTimerRunning d) v
    (activeTouches d) (startPos d) (startScenePos d) (dampedScenePos d)
    (previousDampedScenePos d) (publicPos d) (publicScenePos d)
    (sceneDirectionVector d).

Definition set_activeTouches (v : ActiveTouchesInfo.t) (d : UCDragGesturePrivate) : UCDragGesturePrivate :=
  mkPrivate
    (q_enabled d) (q_visible d) (q_mapToScene d) (status d) (sceneDistance d)
    (touchId d) (direction d) (distanceThreshold d)
    (distanceThresholdSquared d) (maxDistance d) (maxTime d)
    (compositionTime d) (immediateRecognition d) (recognitionTimerRunning d)
    (recognitionTimerInterval d) v (startPos d) (startScenePos d)
    (dampedScenePos d) (previousDampedScenePos d) (publicPos d)
    (publicScenePos d) (sceneDirectionVector d).

Definition set_startPos (v : QPointF) (d : UCDragGesturePrivate) : UCDragGesturePrivate :=
  mkPrivate
    (q_enabled d) (q_visible d) (q_mapToScene d) (status d) (sceneDistance d)
    (touchId d) (direction d) (distanceThreshold d)
    (distanceThresholdSquared d) (maxDistance d) (maxTime d)
    (compositionTime d) (immediateRecognition d) (recognitionTimerRunning d)
    (recognitionTimerInterval d) (activeTouches d) v (startScenePos d)
    (dampedScenePos d) (previousDampedScenePos d) (publicPos d)
    (publicScenePos d) (sceneDirectionVector d).

Definition set_startScenePos (v : QPointF) (d : UCDragGesturePrivate) : UCDragGesturePrivate :=
  mkPrivate
    (q_enabled d) (q_visible d) (q_mapToScene d) (status d) (sceneDistance d)
    (touchId d) (direction d) (distanceThreshold d)
    (distanceThresholdSquared d) (maxDistance d) (maxTime d)
    (compositionTime d) (immediateRecognition d) (recognitionTimerRunning d)
    (recognitionTimerInterval d) (activeTouches d) (startPos d) v
    (dampedScenePos d) (previousDampedScenePos d) (publicPos d)
    (publicScenePos d) (sceneDirectionVector d).

Definition set_dampedScenePos (v : DampedPointF.t) (d : UCDragGesturePrivate) : UCDragGesturePrivate :=
  mkPrivate
    (q_enabled d) (q_visible d) (q_mapToScene d) (status d) (sceneDistance d)
    (touchId d) (direction d) (distanceThreshold d)
    (distanceThresholdSquared d) (maxDistance d) (maxTime d)
    (compositionTime d) (immediateRecognition d) (recognitionTimerRunning d)
    (recognitionTimerInterval d) (activeTouches d) (startPos d)
    (startScenePos d) v (previousDampedScenePos d) (publicPos d)
    (publicScenePos d) (sceneDirectionVector d).

Definition set_previousDampedScenePos (v : QPointF) (d : UCDragGesturePrivate) : UCDragGesturePrivate :=
  mkPrivate
    (q_enabled d) (q_visible d) (q_mapToScene d) (status d) (sceneDistance d)
    (touchId d) (direction d) (distanceThreshold d)
    (distanceThresholdSquared d) (maxDistance d) (maxTime d)
    (compositionTime d) (immediateRecognition d) (recognitionTimerRunning d)
    (recognitionTimerInterval d) (activeTouches d) (startPos d)
    (startScenePos d) (dampedScenePos d) v (publicPos d) (publicScenePos d)
    (sceneDirectionVector d).

Definition set_publicPos (v : QPointF) (d : UCDragGesturePrivate) : UCDragGesturePrivate :=
  mkPrivate
    (q_enabled d) (q_visible d) (q_mapToScene d) (status d) (sceneDistance d)
    (touchId d) (direction d) (distanceThreshold d)
    (distanceThresholdSquared d) (maxDistance d) (maxTime d)
    (compositionTime d) (immediateRecognition d) (recognitionTimerRunning d)
    (recognitionTimerInterval d) (activeTouches d) (startPos d)
    (startScenePos d) (dampedScenePos d) (previousDampedScenePos d) v
    (publicScenePos d) (sceneDirectionVector d).

Definition set_publicScenePos (v : QPointF) (d : UCDragGesturePrivate) : UCDragGesturePrivate :=
  mkPrivate
    (q_enabled d) (q_visible d) (q_mapToScene d) (status d) (sceneDistance d)
    (touchId d) (direction d) (distanceThreshold d)
    (distanceThresholdSquared d) (maxDistance d) (maxTime d)
    (compositionTime d) (immediateRecognition d) (recognitionTimerRunning d)
    (recognitionTimerInterval d) (activeTouches d) (startPos d)
    (startScenePos d) (dampedScenePos d) (previousDampedScenePos d)
    (publicPos d) v (sceneDirectionVector d).

Definition set_sceneDirectionVector (v : QPointF) (d : UCDragGesturePrivate) : UCDragGesturePrivate :=
  mkPrivate
    (q_enabled d) (q_visible d) (q_mapToScene d) (status d) (sceneDistance d)
    (touchId d) (direction d) (distanceThreshold d)
    (distanceThresholdSquared d) (maxDistance d) (maxTime d)
    (compositionTime d) (immediateRecognition d) (recognitionTimerRunning d)
    (recognitionTimerInterval d) (activeTouches d) (startPos d)
    (startScenePos d) (dampedScenePos d) (previousDampedScenePos d)
    (publicPos d) (publicScenePos d) v.

(** The constructor. The header that declares the class is not among the
    sources, so what the initializer list leaves out is an argument: the
    item's transform, [maxDistance], the pool's capacity and the damper's
    limit ([setPixelsPerMm] overwrites [maxDistance] and the limit once the
    item is in a window). The public constructor then sets the timer's
    interval to [maxTime]. *)
Definition UCDragGesturePrivate_new (mapToScene : QPointF -> QPointF)
           (maxDistance0 maxDelta0 : qreal) (capacity : nat)
  : UCDragGesturePrivate :=
  {| q_enabled := true;
     q_visible := true;
     q_mapToScene := mapToScene;
     status := WaitingForTouch;
     sceneDistance := 0%float;
     touchId := -1;
     direction := Rightwards;
     distanceThreshold := 0%float;
     distanceThresholdSquared := 0%float;
     maxDistance := maxDistance0;
     maxTime := 400;
     compositionTime := 60;
     immediateRecognition := false;
     recognitionTimerRunning := false;
     recognitionTimerInterval := 400;
     activeTouches := Pool.create capacity;
     startPos := origin;
     startScenePos := origin;
     dampedScenePos := DampedPointF.mk 0%float 0%float maxDelta0;
     previousDampedScenePos := origin;
     publicPos := origin;
     publicScenePos := origin;
     sceneDirectionVector := origin |}.

(** ** Effects *)

Inductive Signal :=
| statusChanged (s : Status)
| draggingChanged (b : bool)
| pressedChanged (b : bool)
| touchPosChanged (p : QPointF)
| distanceChanged (v : qreal)
| sceneDistanceChanged (v : qreal)
| touchScenePosChanged (p : QPointF).

(** The calls into [TouchRegistry::instance()]; the recognizer that calls is
    always the second argument ([q]). *)
Inductive RegistryCall :=
| AddCandidateOwnerForTouch (id : Z)
| RemoveCandidateOwnerForTouch (id : Z)
| RequestTouchOwnership (id : Z)
| AddTouchWatcher (id : Z).

Inductive Effect :=
| Emit (s : Signal)
| Call (c : RegistryCall)
| qWarning                      (* recognition properties are wrongly set *)
| qCritical                     (* touch missing before being released *)
| AssertFailed                  (* a [Q_ASSERT] whose condition is false *)
| EventAccept
| EventIgnore
| EventToBase                   (* [QQuickItem::touchEvent(event)] *)
| GrabTouchPoints (ids : list Z).

Definition Action := UCDragGesturePrivate -> UCDragGesturePrivate * list Effect.

Definition skip : Action := fun d => (d, []).

Definition andThen (a b : Action) : Action :=
  fun d => let (d1, l1) := a d in
           let (d2, l2) := b d1 in
           (d2, l1 ++ l2).

Notation "a ;; b" := (andThen a b) (at level 61, right associativity).

Definition effect (e : Effect) : Action := fun d => (d, [e]).

Definition modify (f : UCDragGesturePrivate -> UCDragGesturePrivate) : Action :=
  fun d => (f d, []).

Definition Q_ASSERT (c : UCDragGesturePrivate -> bool) : Action :=
  fun d => if c d then (d, []) else (d, [AssertFailed]).

(** The effects of a run that are signals, and those that are calls into the
    broker. *)
Fixpoint signalsOf (l : list Effect) : list Signal :=
  match l with
  | [] => []
  | Emit s :: rest => s :: signalsOf rest
  | _ :: rest => signalsOf rest
  end.

Fixpoint callsOf (l : list Effect) : list RegistryCall :=
  match l with
  | [] => []
  | Call c :: rest => c :: callsOf rest
  | _ :: rest => callsOf rest
  end.

(** ** Public accessors of [UCDragGesture] *)

Definition distance (d : UCDragGesturePrivate) : qreal :=
  if DirectionClass.isHorizontal (direction d)
  then (px (publicPos d) - px (startPos d))%float
  else (py (publicPos d) - py (startPos d))%float.

Definition touchPos (d : UCDragGesturePrivate) : QPointF := publicPos d.

Definition touchScenePos (d : UCDragGesturePrivate) : QPointF := publicScenePos d.

Definition dragging (d : UCDragGesturePrivate) : bool :=
  Status_eqb (status d) Recognized.

Definition pressed (d : UCDragGesturePrivate) : bool :=
  negb (Status_eqb (status d) WaitingForTouch).

(** ** Geometry helpers *)

Definition projectOntoDirectionVector (d : UCDragGesturePrivate)
           (sceneVector : QPointF) : qreal :=
  (px sceneVector * px (sceneDirectionVector d)
   + py sceneVector * py (sceneDirectionVector d))%float.

Definition updateSceneDirectionVector : Action :=
  modify (fun d =>
    let localOrigin := mkPoint 0%float 0%float in
    let localDirection :=
      match direction d with
      | Upwards => mkPoint 0%float (-1)%float
      | Downwards | Vertical => mkPoint 0%float 1%float
      | Leftwards => mkPoint (-1)%float 0%float
      | _ => mkPoint 1%float 0%float
      end in
    let sceneOrigin := q_mapToScene d localOrigin in
    let sceneDirection := q_mapToScene d localDirection in
    set_sceneDirectionVector (psub sceneDirection sceneOrigin) d).

Definition updateSceneDistance : Action :=
  modify (fun d =>
    let totalMovement := psub (publicScenePos d) (startScenePos d) in
    set_sceneDistance (projectOntoDirectionVector d totalMovement) d).

(** ** Recognition predicates *)

Definition recognitionIsDisabled (d : UCDragGesturePrivate) : bool :=
  immediateRecognition d
  || ((distanceThreshold d <=? 0)%float && (compositionTime d <=? 0)).

Definition sanityCheckRecognitionProperties (d : UCDragGesturePrivate) : bool :=
  recognitionIsDisabled d
  || ((distanceThreshold d <? maxDistance d)%float
      && (compositionTime d <? maxTime d)).

Fixpoint fetchTargetTouchPoint (touchPoints : list TouchPoint) (id : Z)
  : option TouchPoint :=
  match touchPoints with
  | [] => None
  | tp :: rest =>
      if tp_id tp =? id then Some tp else fetchTargetTouchPoint rest id
  end.

(** [movementVector] of [movingInRightDirection]: the movement of the damped
    position since the previous sample. *)
Definition movementVector (d : UCDragGesturePrivate) : QPointF :=
  mkPoint (DampedPointF.x (dampedScenePos d)
           - px (previousDampedScenePos d))%float
          (DampedPointF.y (dampedScenePos d)
           - py (previousDampedScenePos d))%float.

Definition movingInRightDirection (d : UCDragGesturePrivate) : bool :=
  match direction d with
  | Horizontal | Vertical => true
  | _ =>
      let scalarProjection :=
        projectOntoDirectionVector d (movementVector d) in
      (0 <=? scalarProjection)%float
  end.

(** [totalMovement] of [movedFarEnoughAlongGestureAxis] and
    [isPastMaxDistance]. *)
Definition totalMovement (d : UCDragGesturePrivate) : QPointF :=
  mkPoint (DampedPointF.x (dampedScenePos d) - px (startScenePos d))%float
          (DampedPointF.y (dampedScenePos d) - py (startScenePos d))%float.

Definition movedFarEnoughAlongGestureAxis (d : UCDragGesturePrivate) : bool :=
  if (distanceThreshold d <=? 0)%float then true
  else
    let scalarProjection := projectOntoDirectionVector d (totalMovement d) in
    match direction d with
    | Horizontal | Vertical =>
        (distanceThreshold d <? qAbs scalarProjection)%float
    | _ => (distanceThreshold d <? scalarProjection)%float
    end.

Definition isPastMaxDistance (d : UCDragGesturePrivate) : bool :=
  let squaredDistance :=
    (px (totalMovement d) * px (totalMovement d)
     + py (totalMovement d) * py (totalMovement d))%float in
  (maxDistance d * maxDistance d <? squaredDistance)%float.

Definition isWithinTouchCompositionWindow (now : Z) (d : UCDragGesturePrivate)
  : bool :=
  (compositionTime d >? 0)
  && negb (ActiveTouchesInfo.isEmpty (activeTouches d))
  && match ActiveTouchesInfo.mostRecentStartTime (activeTouches d) with
     | Some mostRecent => now <=? wrap64 (mostRecent + compositionTime d)
     | None => false
     end.

(** ** State changes and their notifications *)

Definition setStatus (newStatus : Status) : Action :=
  fun d =>
    if Status_eqb newStatus (status d) then (d, [])
    else
      let oldStatus := status d in
      let stopTimer :=
        if Status_eqb oldStatus Undecided
        then modify (set_recognitionTimerRunning false)
        else skip in
      (stopTimer ;;
       modify (set_status newStatus) ;;
       effect (Emit (statusChanged newStatus)) ;;
       match newStatus with
       | WaitingForTouch =>
           (if Status_eqb oldStatus Recognized
            then effect (Emit (draggingChanged false))
            else skip) ;;
           effect (Emit (pressedChanged false))
       | Undecided =>
           modify (set_recognitionTimerRunning true) ;;
           effect (Emit (pressedChanged true))
       | Recognized =>
           effect (Emit (draggingChanged true))
       end) d.

(** The factor of [publicPos.rx() += 0.4 * delta.x()]: the double nearest to
    0.4. *)
Definition smoothing : qreal := 0x1.999999999999ap-2%float.

Definition smoothToward (current point : QPointF) : QPointF :=
  let delta := psub point current in
  mkPoint (px current + smoothing * px delta)%float
          (py current + smoothing * py delta)%float.

Definition statusIsWaitingOrRecognized (d : UCDragGesturePrivate) : bool :=
  Status_eqb (status d) WaitingForTouch || Status_eqb (status d) Recognized.

Definition setPublicPos (point : QPointF) : Action :=
  fun d =>
    let xChanged := qneq (px (publicPos d)) (px point) in
    let yChanged := qneq (py (publicPos d)) (py point) in
    (Q_ASSERT statusIsWaitingOrRecognized ;;
     modify (fun d =>
       if Status_eqb (status d) Recognized && negb (recognitionIsDisabled d)
       then set_publicPos (smoothToward (publicPos d) point) d
       else set_publicPos point d) ;;
     (if xChanged then
        (fun d => effect (Emit (touchPosChanged (publicPos d))) d) ;;
        (fun d =>
           if DirectionClass.isHorizontal (direction d)
           then effect (Emit (distanceChanged (distance d))) d
           else skip d)
      else skip) ;;
     (if yChanged then
        (fun d => effect (Emit (touchPosChanged (publicPos d))) d) ;;
        (fun d =>
           if DirectionClass.isVertical (direction d)
           then effect (Emit (distanceChanged (distance d))) d
           else skip d)
      else skip)) d.

Definition setPublicScenePos (point : QPointF) : Action :=
  fun d =>
    let xChanged := qneq (px (publicScenePos d)) (px point) in
    let yChanged := qneq (py (publicScenePos d)) (py point) in
    if negb xChanged && negb yChanged then (d, [])
    else
      let oldSceneDistance := sceneDistance d in
      (Q_ASSERT statusIsWaitingOrRecognized ;;
       modify (fun d =>
         if Status_eqb (status d) Recognized && negb (recognitionIsDisabled d)
         then set_publicScenePos (smoothToward (publicScenePos d) point) d
         else set_publicScenePos point d) ;;
       updateSceneDistance ;;
       (fun d =>
          if qneq oldSceneDistance (sceneDistance d)
          then effect (Emit (sceneDistanceChanged (sceneDistance d))) d
          else skip d) ;;
       (fun d =>
          if xChanged || yChanged
          then effect (Emit (touchScenePosChanged (publicScenePos d))) d
          else skip d)) d.

(** ** Handlers *)

Record TouchOwnershipEvent := mkOwnershipEvent {
  toe_touchId : Z;
  gained : bool
}.

(** The gained branch also releases the window's mouse grabber when the
    touch drives the emulated mouse (a workaround for a Qt defect); that
    touches neither the recognizer nor the broker and is left out. *)
Definition touchOwnershipEvent (event : TouchOwnershipEvent) : Action :=
  if gained event then
    effect (GrabTouchPoints [toe_touchId event])
  else
    (fun d => effect (Call (AddTouchWatcher (touchId d))) d) ;;
    setStatus WaitingForTouch.

(** Shorthands for the three calls the handlers make with their own
    [touchId]: [removeCandidateOwnerForTouch(touchId, q)],
    [addTouchWatcher(touchId, q)] and [requestTouchOwnership(touchId, q)]. *)
Definition withdraw : Action :=
  fun d => effect (Call (RemoveCandidateOwnerForTouch (touchId d))) d.

Definition watch : Action :=
  fun d => effect (Call (AddTouchWatcher (touchId d))) d.

Definition requestOwnership : Action :=
  fun d => effect (Call (RequestTouchOwnership (touchId d))) d.

(** The damped position is refit to the sample, the previous one kept. *)
Definition updateDampedScenePos (touchScenePos : QPointF) : Action :=
  modify (fun d =>
    let d1 :=
      set_previousDampedScenePos
        (mkPoint (DampedPointF.x (dampedScenePos d))
                 (DampedPointF.y (dampedScenePos d))) d in
    set_dampedScenePos
      (DampedPointF.update touchScenePos (dampedScenePos d1)) d1).

Definition unownedTouchEvent_undecided (now : Z) (event : QTouchEvent) : Action :=
  fun d =>
    match fetchTargetTouchPoint event (touchId d) with
    | None =>
        (effect qCritical ;; withdraw ;; setStatus WaitingForTouch) d
    | Some touchPoint =>
        let touchScenePos := tp_scenePos touchPoint in
        if isReleased (tp_state touchPoint) then
          (withdraw ;; setStatus WaitingForTouch) d
        else
          (updateDampedScenePos touchScenePos ;;
           (fun d =>
              if negb (movingInRightDirection d) then
                (withdraw ;; watch ;; setStatus WaitingForTouch) d
              else if isWithinTouchCompositionWindow now d then
                skip d
              else if movedFarEnoughAlongGestureAxis d then
                (requestOwnership ;;
                 setStatus Recognized ;;
                 setPublicPos (tp_pos touchPoint) ;;
                 setPublicScenePos touchScenePos) d
              else if isPastMaxDistance d then
                (withdraw ;; watch ;; setStatus WaitingForTouch) d
              else skip d)) d
    end.

Definition updateActiveTouches (now : Z) (event : QTouchEvent) : Action :=
  modify (fun d =>
    set_activeTouches (ActiveTouchesInfo.update now event (activeTouches d)) d).

Definition unownedTouchEvent (now : Z) (event : QTouchEvent) : Action :=
  Q_ASSERT (fun _ => negb (hasPressed event)) ;;
  (fun d =>
     match status d with
     | WaitingForTouch => skip d
     | Undecided =>
         (Q_ASSERT (fun d => q_enabled d && q_visible d) ;;
          unownedTouchEvent_undecided now event) d
     | Recognized => skip d
     end) ;;
  updateActiveTouches now event.

Fixpoint watchPressedTouchPoints (touchPoints : list TouchPoint) : Action :=
  match touchPoints with
  | [] => skip
  | touchPoint :: rest =>
      (if isPressed (tp_state touchPoint)
       then effect (Call (AddTouchWatcher (tp_id touchPoint)))
       else skip) ;;
      watchPressedTouchPoints rest
  end.

(** The loop of [touchEvent_absent] that looks for the one pressed point:
    it runs while [allGood] holds. *)
Fixpoint findNewTouchPoint (touchPoints : list TouchPoint) (allGood : bool)
         (newTouchPoint : option TouchPoint) : bool * option TouchPoint :=
  match touchPoints with
  | [] => (allGood, newTouchPoint)
  | touchPoint :: rest =>
      if allGood then
        if isPressed (tp_state touchPoint) then
          match newTouchPoint with
          | Some _ => findNewTouchPoint rest false newTouchPoint
          | None => findNewTouchPoint rest allGood (Some touchPoint)
          end
        else findNewTouchPoint rest allGood newTouchPoint
      else (allGood, newTouchPoint)
  end.

Definition touchEvent_absent (now : Z) (event : QTouchEvent) : Action :=
  fun d =>
    if negb (hasPressed event) then (d, [])
    else
      let allGood := negb (isWithinTouchCompositionWindow now d) in
      let touchPoints := event in
      let (allGood, newTouchPoint) := findNewTouchPoint touchPoints allGood None in
      let (allGood, warn) :=
        if allGood then
          let allGood := sanityCheckRecognitionProperties d in
          (allGood, if negb allGood then effect qWarning else skip)
        else (allGood, skip) in
      (warn ;;
       if allGood then
         match newTouchPoint with
         | None => effect AssertFailed
         | Some newTouchPoint =>
             modify (set_startPos (tp_pos newTouchPoint)) ;;
             modify (set_startScenePos (tp_scenePos newTouchPoint)) ;;
             modify (set_touchId (tp_id newTouchPoint)) ;;
             modify (fun d =>
               set_dampedScenePos
                 (DampedPointF.reset (startScenePos d) (dampedScenePos d)) d) ;;
             (fun d => setPublicPos (startPos d) d) ;;
             (fun d => setPublicScenePos (startScenePos d) d) ;;
             updateSceneDirectionVector ;;
             (fun d =>
                if recognitionIsDisabled d then
                  (requestOwnership ;;
                   setStatus Recognized ;;
                   effect EventAccept) d
                else
                  ((fun d =>
                      effect (Call (AddCandidateOwnerForTouch (touchId d))) d) ;;
                   setStatus Undecided ;;
                   effect EventIgnore) d)
         end
       else
         watchPressedTouchPoints touchPoints ;;
         effect EventIgnore) d.

Definition touchEvent_undecided (now : Z) (event : QTouchEvent) : Action :=
  (fun d =>
     Q_ASSERT (fun d =>
       match fetchTargetTouchPoint event (touchId d) with
       | None => true
       | Some _ => false
       end) d) ;;
  effect EventIgnore ;;
  watchPressedTouchPoints event ;;
  (fun d =>
     if hasPressed event && isWithinTouchCompositionWindow now d
     then (withdraw ;; watch ;; setStatus WaitingForTouch) d
     else skip d).

Definition touchEvent_recognized (event : QTouchEvent) : Action :=
  fun d =>
    match fetchTargetTouchPoint event (touchId d) with
    | None => (effect qCritical ;; setStatus WaitingForTouch) d
    | Some touchPoint =>
        (setPublicPos (tp_pos touchPoint) ;;
         setPublicScenePos (tp_scenePos touchPoint) ;;
         (if isReleased (tp_state touchPoint)
          then setStatus WaitingForTouch
          else skip)) d
    end.

(** [UCDragGesture::touchEvent]. *)
Definition touchEvent (now : Z) (event : QTouchEvent) : Action :=
  fun d =>
    if negb (q_enabled d) || negb (q_visible d) then effect EventToBase d
    else
      ((fun d =>
          match status d with
          | WaitingForTouch => touchEvent_absent now event d
          | Undecided => touchEvent_undecided now event d
          | Recognized => touchEvent_recognized event d
          end) ;;
       updateActiveTouches now event) d.

Definition giveUpIfDisabledOrInvisible : Action :=
  fun d =>
    if negb (q_enabled d) || negb (q_visible d) then
      ((if Status_eqb (status d) Undecided
        then withdraw ;; watch
        else skip) ;;
       (if negb (Status_eqb (status d) WaitingForTouch)
        then setStatus WaitingForTouch
        else skip)) d
    else (d, []).

(** The slot of the recognition timer's [timeout] signal. *)
Definition rejectGesture : Action :=
  fun d =>
    if Status_eqb (status d) Undecided then
      (withdraw ;; watch ;; setStatus WaitingForTouch) d
    else (d, []).

(** ** Configuration *)

Definition setDirection (v : Direction) (d : UCDragGesturePrivate)
  : UCDragGesturePrivate :=
  set_direction v d.

Definition setDistanceThreshold (value : qreal) (d : UCDragGesturePrivate)
  : UCDragGesturePrivate :=
  if qneq (distanceThreshold d) value
  then set_distanceThresholdSquared (value * value)%float
         (set_distanceThreshold value d)
  else d.

Definition setMaxTime (value : Z) (d : UCDragGesturePrivate)
  : UCDragGesturePrivate :=
  if negb (maxTime d =? value)
  then set_recognitionTimerInterval value (set_maxTime value d)
  else d.

Definition setImmediateRecognition (enabled : bool) (d : UCDragGesturePrivate)
  : UCDragGesturePrivate :=
  set_immediateRecognition enabled d.

Definition removeTimeConstraints (d : UCDragGesturePrivate)
  : UCDragGesturePrivate :=
  set_compositionTime 0 (setMaxTime (60 * 60 * 1000) d).

Definition setPixelsPerMm (pixelsPerMm : qreal) (d : UCDragGesturePrivate)
  : UCDragGesturePrivate :=
  let d1 :=
    set_dampedScenePos
      (DampedPointF.setMaxDelta (1 * pixelsPerMm)%float (dampedScenePos d)) d in
  let d2 := setDistanceThreshold (4 * pixelsPerMm)%float d1 in
  set_maxDistance (10 * pixelsPerMm)%float d2.

(** ** Sequences of deliveries to one recognizer *)

Inductive Delivery :=
| Touch (now : Z) (event : QTouchEvent)          (* [touchEvent] *)
| Unowned (now : Z) (event : QTouchEvent)        (* an [UnownedTouchEvent] *)
| Ownership (event : TouchOwnershipEvent)        (* a [TouchOwnershipEvent] *)
| TimerTimeout                                   (* the recognition timer fires *)
| SetEnabled (b : bool)
| SetVisible (b : bool).

Definition deliver (e : Delivery) : Action :=
  match e with
  | Touch now event => touchEvent now event
  | Unowned now event => unownedTouchEvent now event
  | Ownership event => touchOwnershipEvent event
  | TimerTimeout => rejectGesture
  | SetEnabled b => modify (set_q_enabled b) ;; giveUpIfDisabledOrInvisible
  | SetVisible b => modify (set_q_visible b) ;; giveUpIfDisabledOrInvisible
  end.

Fixpoint deliverAll (es : list Delivery) : Action :=
  match es with
  | [] => skip
  | e :: rest => deliver e ;; deliverAll rest
  end.

(** ** The touch ownership broker *)

(** A recognizer is named by its position in the system's list of
    recognizers. *)
Definition Recognizer := nat.

(** Modelled from the spec: [TouchRegistry] (TouchRegistry.cpp is not among
    the sources). The candidate sets, the ownership map and the watchers are
    association lists from touch ids to recognizers. [requestTouchOwnership]
    grants an unowned touch to the requester at once (the first requester
    wins; on an owned touch it does nothing), notifies the requester that it
    gained the touch and every other candidate of that touch that it lost
    it, and leaves the touch without candidates. Every operation is a no-op
    where it does not apply. *)
Module TouchRegistry.

Definition Entry := (Z * Recognizer)%type.

Record t := mk {
  candidates : list Entry;
  owners : list Entry;
  watchers : list Entry
}.

Definition empty : t := mk [] [] [].

Definition sameEntry (a b : Entry) : bool :=
  (fst a =? fst b) && Nat.eqb (snd a) (snd b).

Definition forTouch (id : Z) (l : list Entry) : list Recognizer :=
  map snd (filter (fun e => fst e =? id) l).

Definition notForTouch (id : Z) (l : list Entry) : list Entry :=
  filter (fun e => negb (fst e =? id)) l.

Definition candidatesFor (id : Z) (r : t) : list Recognizer :=
  forTouch id (candidates r).

Definition owner (id : Z) (r : t) : option Recognizer :=
  hd_error (forTouch id (owners r)).

Definition owns (r : t) (q : Recognizer) (id : Z) : Prop :=
  In (id, q) (owners r).

Definition addCandidateOwnerForTouch (id : Z) (q : Recognizer) (r : t) : t :=
  if existsb (sameEntry (id, q)) (candidates r) then r
  else mk (candidates r ++ [(id, q)]) (owners r) (watchers r).

Definition removeCandidateOwnerForTouch (id : Z) (q : Recognizer) (r : t) : t :=
  mk (filter (fun e => negb (sameEntry (id, q) e)) (candidates r))
     (owners r) (watchers r).

Definition addTouchWatcher (id : Z) (q : Recognizer) (r : t) : t :=
  if existsb (sameEntry (id, q)) (watchers r) then r
  else mk (candidates r) (owners r) (watchers r ++ [(id, q)]).

Definition Notification := (Recognizer * TouchOwnershipEvent)%type.

Definition losersOf (id : Z) (q : Recognizer) (r : t) : list Recognizer :=
  filter (fun c => negb (Nat.eqb c q)) (candidatesFor id r).

Definition requestTouchOwnership (id : Z) (q : Recognizer) (r : t)
  : t * list Notification :=
  match owner id r with
  | Some _ => (r, [])
  | None =>
      (mk (notForTouch id (candidates r)) (owners r ++ [(id, q)]) (watchers r),
       (q, mkOwnershipEvent id true)
         :: map (fun c => (c, mkOwnershipEvent id false)) (losersOf id q r))
  end.

(** The touch has been released: the broker stops tracking it. *)
Definition touchEnded (id : Z) (r : t) : t :=
  mk (notForTouch id (candidates r)) (notForTouch id (owners r))
     (notForTouch id (watchers r)).

Definition call (q : Recognizer) (c : RegistryCall) (r : t)
  : t * list Notification :=
  match c with
  | AddCandidateOwnerForTouch id =>
      (addCandidateOwnerForTouch id q r, [])
  | RemoveCandidateOwnerForTouch id =>
      (removeCandidateOwnerForTouch id q r, [])
  | RequestTouchOwnership id => requestTouchOwnership id q r
  | AddTouchWatcher id => (addTouchWatcher id q r, [])
  end.

(** The ownership-map invariant: a touch id has at most one entry. *)
Definition ownersUnique (r : t) : Prop := NoDup (map fst (owners r)).

End TouchRegistry.

(** ** The system: the broker and the recognizers on the surface *)

Record System := mkSystem {
  registry : TouchRegistry.t;
  recognizers : list UCDragGesturePrivate
}.

Fixpoint replaceNth {A : Type} (n : nat) (v : A) (l : list A) : list A :=
  match l, n with
  | [], _ => []
  | _ :: rest, O => v :: rest
  | a :: rest, S n' => a :: replaceNth n' v rest
  end.

(** The registry part of the calls a recognizer made. *)
Definition recordCalls (q : Recognizer) (calls : list RegistryCall)
           (r : TouchRegistry.t) : TouchRegistry.t :=
  fold_left (fun r c => fst (TouchRegistry.call q c r)) calls r.

(** The broker sends a [TouchOwnershipEvent] to a recognizer; what the
    recognizer then asks of the broker is recorded. *)
Definition sendOwnershipEvent (n : TouchRegistry.Notification) (s : System)
  : System :=
  match nth_error (recognizers s) (fst n) with
  | None => s
  | Some d =>
      let (d', log) := touchOwnershipEvent (snd n) d in
      mkSystem (recordCalls (fst n) (callsOf log) (registry s))
               (replaceNth (fst n) d' (recognizers s))
  end.

Definition sendOwnershipEvents (ns : list TouchRegistry.Notification)
           (s : System) : System :=
  fold_left (fun s n => sendOwnershipEvent n s) ns s.

(** A call of recognizer [q] reaches the broker, which answers with its
    notifications. *)
Definition performCall (q : Recognizer) (c : RegistryCall) (s : System)
  : System :=
  let (r', ns) := TouchRegistry.call q c (registry s) in
  sendOwnershipEvents ns (mkSystem r' (recognizers s)).

Definition performCalls (q : Recognizer) (calls : list RegistryCall)
           (s : System) : System :=
  fold_left (fun s c => performCall q c s) calls s.

Inductive SystemEvent :=
| At (q : Recognizer) (e : Delivery)
| TouchEnded (id : Z).

(** Ownership events come from the broker only. *)
Definition fromOutside (e : Delivery) : bool :=
  match e with
  | Ownership _ => false
  | _ => true
  end.

Definition step (s : System) (e : SystemEvent) : System :=
  match e with
  | At q e =>
      match nth_error (recognizers s) q with
      | Some d =>
          if fromOutside e then
            let (d', log) := deliver e d in
            performCalls q (callsOf log)
                         (mkSystem (registry s) (replaceNth q d' (recognizers s)))
          else s
      | None => s
      end
  | TouchEnded id =>
      mkSystem (TouchRegistry.touchEnded id (registry s)) (recognizers s)
  end.

Definition run (events : list SystemEvent) (s : System) : System :=
  fold_left step events s.

Definition startOf (recognizers : list UCDragGesturePrivate) : System :=
  mkSystem TouchRegistry.empty recognizers.

(** ** Vocabulary of the properties *)

(** The recognizer once it has refit its damped position to the sample
    [touchPoint], as [unownedTouchEvent_undecided] does before it decides. *)
Definition sampled (touchPoint : TouchPoint) (d : UCDragGesturePrivate)
  : UCDragGesturePrivate :=
  fst (updateDampedScenePos (tp_scenePos touchPoint) d).

(** The ways an undecided gesture is rejected. *)
Inductive RejectionCause :=
| WrongDirection
| PastMaxDistance
| TimedOut
| SecondTouch.

(** What is delivered to the recognizer in each case. *)
Definition rejectionDelivery (c : RejectionCause) (now : Z) (event : QTouchEvent)
  : Delivery :=
  match c with
  | WrongDirection | PastMaxDistance => Unowned now event
  | TimedOut => TimerTimeout
  | SecondTouch => Touch now event
  end.

(** The condition under which the delivery is that rejection. *)
Definition rejectedBy (c : RejectionCause) (now : Z) (event : QTouchEvent)
           (d : UCDragGesturePrivate) : Prop :=
  match c with
  | WrongDirection =>
      exists touchPoint,
        fetchTargetTouchPoint event (touchId d) = Some touchPoint
        /\ isReleased (tp_state touchPoint) = false
        /\ movingInRightDirection (sampled touchPoint d) = false
  | PastMaxDistance =>
      exists touchPoint,
        fetchTargetTouchPoint event (touchId d) = Some touchPoint
        /\ isReleased (tp_state touchPoint) = false
        /\ movingInRightDirection (sampled touchPoint d) = true
        /\ isWithinTouchCompositionWindow now d = false
        /\ movedFarEnoughAlongGestureAxis (sampled touchPoint d) = false
        /\ isPastMaxDistance (sampled touchPoint d) = true
  | TimedOut => True
  | SecondTouch =>
      q_enabled d = true /\ q_visible d = true
      /\ hasPressed event = true
      /\ isWithinTouchCompositionWindow now d = true
  end.

(** What every rejection runs, and the recognizer it leaves. *)
Definition rejectAction : Action :=
  withdraw ;; watch ;; setStatus WaitingForTouch.

Definition rejected (d : UCDragGesturePrivate) : UCDragGesturePrivate :=
  set_status WaitingForTouch (set_recognitionTimerRunning false d).

(** The accumulated movement along the gesture axis exceeds the threshold:
    the projection itself for the four signed directions, its absolute
    value for [Horizontal] and [Vertical]. *)
Definition exceedsDistanceThreshold (d : UCDragGesturePrivate) : bool :=
  let scalarProjection := projectOntoDirectionVector d (totalMovement d) in
  if isSigned (direction d)
  then (distanceThreshold d <? scalarProjection)%float
  else (distanceThreshold d <? qAbs scalarProjection)%float.

(** The number of points of the event that are pressed. *)
Definition pressedCount (event : QTouchEvent) : nat :=
  length (filter (fun tp => isPressed (tp_state tp)) event).

(** ** Recognizers and events used as examples *)

Definition touchAt (id : Z) (state : TouchPointState) (x y : qreal)
  : TouchPoint :=
  mkTouchPoint id state (mkPoint x y) (mkPoint x y).

Arguments touchAt id state (x y)%_float_scope.

(** An untransformed item with [maxDistance] 50, a damper limit of 100, a
    pool of 20 slots and a distance threshold of 10; the other properties
    keep the constructor's values (rightwards, 60 ms of composition time,
    400 ms of recognition time). *)
Definition exampleGesture : UCDragGesturePrivate :=
  setDistanceThreshold 10%float
    (UCDragGesturePrivate_new (fun p => p) 50%float 100%float 20).

(** The example after touch 1 has been pressed at the origin at time 0. *)
Definition pressedGesture : UCDragGesturePrivate :=
  fst (touchEvent 0 [touchAt 1 TouchPointPressed 0%float 0%float]
                  exampleGesture).

(** The example 30 ms after the press, the touch now at 15 along the axis:
    still within the composition window, so still [Undecided]. *)
Definition driftedGesture : UCDragGesturePrivate :=
  fst (unownedTouchEvent 30 [touchAt 1 TouchPointMoved 15 0] pressedGesture).

(** An example whose threshold of 60 is not below its [maxDistance] of 50,
    and the same after touch 1 has been pressed on it at time 0. *)
Definition misconfiguredGesture : UCDragGesturePrivate :=
  setDistanceThreshold 60%float
    (UCDragGesturePrivate_new (fun p => p) 50%float 100%float 20).

Definition misconfiguredPressed : UCDragGesturePrivate :=
  fst (touchEvent 0 [touchAt 1 TouchPointPressed 0 0] misconfiguredGesture).

(** Two recognizers that both received the press of touch 1. *)
Definition twoCandidates : list SystemEvent :=
  [At 0%nat (Touch 0 [touchAt 1 TouchPointPressed 0 0]);
   At 1%nat (Touch 0 [touchAt 1 TouchPointPressed 0 0])].

(** The ownership-map invariant on a system. *)
Definition systemOwnersUnique (s : System) : Prop :=
  TouchRegistry.ownersUnique (registry s).

(** The recognizer [q], if there is one, is [WaitingForTouch]. *)
Definition waitingAt (s : System) (q : Recognizer) : Prop :=
  forall d, nth_error (recognizers s) q = Some d -> status d = WaitingForTouch.


(** ** Vocabulary of the state machine *)

(** The signals about the status and the two properties derived from it. *)
Definition isStatusSignal (s : Signal) : bool :=
  match s with
  | statusChanged _ | draggingChanged _ | pressedChanged _ => true
  | _ => false
  end.

Definition statusSignalsOf (log : list Effect) : list Signal :=
  filter isStatusSignal (signalsOf log).

(** The calls about candidacy and ownership: every call but
    [addTouchWatcher]. *)
Definition isWatchCall (c : RegistryCall) : bool :=
  match c with
  | AddTouchWatcher _ => true
  | _ => false
  end.

Definition candidacyCallsOf (log : list Effect) : list RegistryCall :=
  filter (fun c => negb (isWatchCall c)) (callsOf log).

(** What [watchPressedTouchPoints] logs. *)
Definition watchLog (touchPoints : list TouchPoint) : list Effect :=
  map (fun tp => Call (AddTouchWatcher (tp_id tp)))
      (filter (fun tp => isPressed (tp_state tp)) touchPoints).

(** The recognizer [setStatus] leaves. *)
Definition withStatus (newStatus : Status) (d : UCDragGesturePrivate)
  : UCDragGesturePrivate :=
  if Status_eqb newStatus (status d) then d
  else
    let d1 :=
      if Status_eqb (status d) Undecided
      then set_recognitionTimerRunning false d else d in
    let d2 := set_status newStatus d1 in
    match newStatus with
    | Undecided => set_recognitionTimerRunning true d2
    | _ => d2
    end.

(** The signals [setStatus] emits on a change from [old] to [new]. *)
Definition statusNotifications (old new : Status) : list Signal :=
  if Status_eqb new old then []
  else
    statusChanged new
      :: match new with
         | WaitingForTouch =>
             (if Status_eqb old Recognized then [draggingChanged false] else [])
               ++ [pressedChanged false]
         | Undecided => [pressedChanged true]
         | Recognized => [draggingChanged true]
         end.

(** The calls about candidacy and ownership that go with a change of
    status: candidacy when a gesture starts to be evaluated, ownership when
    it is recognized, withdrawal when it is given up ([outside] is false
    for an ownership event, where the broker itself has dropped the
    candidate). *)
Definition protocolCalls (outside : bool) (old new : Status) (oldId newId : Z)
  : list RegistryCall :=
  match old, new with
  | WaitingForTouch, Undecided => [AddCandidateOwnerForTouch newId]
  | WaitingForTouch, Recognized => [RequestTouchOwnership newId]
  | Undecided, Recognized => [RequestTouchOwnership oldId]
  | Undecided, WaitingForTouch =>
      if outside then [RemoveCandidateOwnerForTouch oldId] else []
  | _, _ => []
  end.

(** The recognition timer runs exactly while the gesture is undecided. *)
Definition timerFollowsStatus (d : UCDragGesturePrivate) : Prop :=
  recognitionTimerRunning d = Status_eqb (status d) Undecided.

(** A recognizer that is not waiting is enabled and visible. *)
Definition usableWhileActive (d : UCDragGesturePrivate) : Prop :=
  status d <> WaitingForTouch -> q_enabled d = true /\ q_visible d = true.

(** While undecided, the public position is the position of the press. *)
Definition publicPosAtStart (d : UCDragGesturePrivate) : Prop :=
  status d = Undecided -> publicPos d = startPos d.

(** What the assertions of the handlers expect of a delivery: an unowned
    event carries no pressed point and reaches an undecided recognizer only
    while its item is enabled and visible; a touch event that reaches an
    undecided recognizer does not carry its touch. [brokenContract] is the
    negation. *)
Definition brokenContract (e : Delivery) (d : UCDragGesturePrivate) : Prop :=
  match e with
  | Touch _ event =>
      status d = Undecided
      /\ exists tp, fetchTargetTouchPoint event (touchId d) = Some tp
  | Unowned _ event =>
      hasPressed event = true
      \/ (status d = Undecided /\ q_enabled d && q_visible d = false)
  | _ => False
  end.

(** What one delivery does to a recognizer, as far as its state machine
    goes. *)
Record Summary (e : Delivery) (d d' : UCDragGesturePrivate) (log : list Effect)
  : Prop := {
  sum_signals :
    statusSignalsOf log = statusNotifications (status d) (status d');
  sum_calls :
    candidacyCallsOf log
    = protocolCalls (fromOutside e) (status d) (status d')
                    (touchId d) (touchId d');
  sum_timer : timerFollowsStatus d -> timerFollowsStatus d';
  sum_usable : usableWhileActive d -> usableWhileActive d';
  sum_origin :
    status d <> WaitingForTouch ->
    touchId d' = touchId d
    /\ startPos d' = startPos d
    /\ startScenePos d' = startScenePos d
    /\ sceneDirectionVector d' = sceneDirectionVector d;
  sum_public :
    status d = Undecided -> status d' <> Recognized ->
    publicPos d' = publicPos d
    /\ publicScenePos d' = publicScenePos d
    /\ sceneDistance d' = sceneDistance d;
  sum_undecided :
    status d' = Undecided -> status d <> Undecided ->
    publicPos d' = startPos d'
    /\ status d = WaitingForTouch
    /\ exists now event, e = Touch now event;
  sum_recognized :
    status d' = Recognized -> status d <> Recognized ->
    (status d = WaitingForTouch
     /\ recognitionIsDisabled d = true
     /\ exists now event, e = Touch now event)
    \/ (status d = Undecided
        /\ exists now event, e = Unowned now event);
  sum_never : status d = Recognized -> status d' <> Undecided;
  sum_config :
    direction d' = direction d
    /\ distanceThreshold d' = distanceThreshold d
    /\ distanceThresholdSquared d' = distanceThresholdSquared d
    /\ maxDistance d' = maxDistance d
    /\ maxTime d' = maxTime d
    /\ recognitionTimerInterval d' = recognitionTimerInterval d
    /\ compositionTime d' = compositionTime d
    /\ immediateRecognition d' = immediateRecognition d;
  sum_asserts : In AssertFailed log -> brokenContract e d
}.

(** The drifted example recognized at time 100, the touch at 16. *)
Definition recognizedGesture : UCDragGesturePrivate :=
  fst (unownedTouchEvent 100 [touchAt 1 TouchPointMoved 16 0] driftedGesture).

(** ** Configuration calls *)

Inductive Configuration :=
| SetDirection (v : Direction)
| SetDistanceThreshold (value : qreal)
| SetMaxTime (value : Z)
| SetImmediateRecognition (enabled : bool)
| RemoveTimeConstraints
| SetPixelsPerMm (pixelsPerMm : qreal).

Definition configure (c : Configuration) (d : UCDragGesturePrivate)
  : UCDragGesturePrivate :=
  match c with
  | SetDirection v => setDirection v d
  | SetDistanceThreshold value => setDistanceThreshold value d
  | SetMaxTime value => setMaxTime value d
  | SetImmediateRecognition enabled => setImmediateRecognition enabled d
  | RemoveTimeConstraints => removeTimeConstraints d
  | SetPixelsPerMm pixelsPerMm => setPixelsPerMm pixelsPerMm d
  end.

(** What happens to a recognizer: it is configured, or something is
    delivered to it. *)
Inductive Operation :=
| Configure (c : Configuration)
| Receive (e : Delivery).

Definition operate (o : Operation) (d : UCDragGesturePrivate)
  : UCDragGesturePrivate :=
  match o with
  | Configure c => configure c d
  | Receive e => fst (deliver e d)
  end.

Definition operateAll (os : list Operation) (d : UCDragGesturePrivate)
  : UCDragGesturePrivate :=
  fold_left (fun d o => operate o d) os d.

(** The two values the setters keep in step with the property they belong
    to: the cached square of the threshold and the interval of the
    recognition timer. *)
Definition derivedValuesInStep (d : UCDragGesturePrivate) : Prop :=
  distanceThresholdSquared d = (distanceThreshold d * distanceThreshold d)%float
  /\ recognitionTimerInterval d = maxTime d.

(** The values of the configuration properties and of what is derived from
    them. *)
Definition sameConfiguration (d d' : UCDragGesturePrivate) : Prop :=
  direction d' = direction d
  /\ distanceThreshold d' = distanceThreshold d
  /\ distanceThresholdSquared d' = distanceThresholdSquared d
  /\ maxDistance d' = maxDistance d
  /\ maxTime d' = maxTime d
  /\ recognitionTimerInterval d' = recognitionTimerInterval d
  /\ compositionTime d' = compositionTime d
  /\ immediateRecognition d' = immediateRecognition d.


(** * Properties *)

(** ** Lists of effects *)

Lemma callsOf_app (l1 l2 : list Effect) :
  callsOf (l1 ++ l2) = callsOf l1 ++ callsOf l2.
Proof.
  induction l1 as [|e l1 IH]; simpl; [reflexivity|].
  destruct e; simpl; rewrite ?IH; reflexivity.
Qed.

Lemma signalsOf_app (l1 l2 : list Effect) :
  signalsOf (l1 ++ l2) = signalsOf l1 ++ signalsOf l2.
Proof.
  induction l1 as [|e l1 IH]; simpl; [reflexivity|].
  destruct e; simpl; rewrite ?IH; reflexivity.
Qed.

Lemma andThen_run (a b : Action) (d : UCDragGesturePrivate) :
  (a ;; b) d = (fst (b (fst (a d))), snd (a d) ++ snd (b (fst (a d)))).
Proof.
  unfold andThen. destruct (a d) as [d1 l1]. simpl.
  destruct (b d1) as [d2 l2]. reflexivity.
Qed.

Lemma Status_eqb_eq (a b : Status) : Status_eqb a b = true <-> a = b.
Proof. destruct a, b; simpl; split; congruence. Qed.

(** ** The registry of active touches *)

Lemma isEmpty_records (a : Pool.t) :
  Pool.isEmpty a = true <-> Pool.records a = [].
Proof.
  induction a as [|[x|] a IH]; simpl; split; try congruence; apply IH.
Qed.

(** The loop of [mostRecentStartTime], started from any value: the result is
    an upper bound of that value and of every start time, and it is one of
    them. *)
Lemma highest_forEach (a : Pool.t) :
  forall acc,
    let m :=
      Pool.forEach (fun activeTouchInfo highestStartTime =>
                      if startTime activeTouchInfo >? highestStartTime
                      then (startTime activeTouchInfo, true)
                      else (highestStartTime, true)) a acc in
    acc <= m
    /\ (forall r, In r (Pool.records a) -> startTime r <= m)
    /\ (m = acc \/ In m (map startTime (Pool.records a))).
Proof.
  induction a as [|[x|] a IH]; intros acc; simpl.
  - repeat split; [lia | tauto | now left].
  - destruct (startTime x >? acc) eqn:E.
    + destruct (IH (startTime x)) as (H1 & H2 & H3).
      repeat split.
      * lia.
      * intros r [<-|Hr]; [exact H1 | now apply H2].
      * destruct H3 as [->|H3]; right; [now left | now right].
    + destruct (IH acc) as (H1 & H2 & H3).
      repeat split.
      * exact H1.
      * intros r [<-|Hr]; [lia | now apply H2].
      * destruct H3 as [H3|H3]; [now left | right; now right].
  - apply IH.
Qed.

(** C9. For every non-empty registry of active touches whose start times are
    timestamps (not negative), [mostRecentStartTime] returns the maximum
    start time among the active records: a start time of one of them that
    none exceeds. On an empty registry the assertion fires and there is no
    result; the caller, [isWithinTouchCompositionWindow], checks emptiness
    first and answers [false] there. *)
Theorem mostRecentStartTime_is_maximum :
  forall a : ActiveTouchesInfo.t,
    (ActiveTouchesInfo.isEmpty a = false ->
     (forall r, In r (Pool.records a) -> 0 <= startTime r) ->
     exists m,
       ActiveTouchesInfo.mostRecentStartTime a = Some m
       /\ In m (map startTime (Pool.records a))
       /\ forall r, In r (Pool.records a) -> startTime r <= m)
    /\ (ActiveTouchesInfo.isEmpty a = true ->
        ActiveTouchesInfo.mostRecentStartTime a = None
        /\ forall now d,
            activeTouches d = a ->
            isWithinTouchCompositionWindow now d = false).
Proof.
  intros a. split.
  - intros Hne Hpos.
    unfold ActiveTouchesInfo.mostRecentStartTime.
    unfold ActiveTouchesInfo.isEmpty in Hne. rewrite Hne.
    eexists. split; [reflexivity|].
    destruct (highest_forEach a (-1)) as (H1 & H2 & H3).
    split; [|exact H2].
    destruct H3 as [H3|H3]; [|exact H3].
    exfalso.
    destruct (Pool.records a) as [|r rs] eqn:Er.
    + apply isEmpty_records in Er. congruence.
    + specialize (H2 r (or_introl eq_refl)).
      specialize (Hpos r (or_introl eq_refl)). lia.
  - intros He. split.
    + unfold ActiveTouchesInfo.mostRecentStartTime.
      unfold ActiveTouchesInfo.isEmpty in He. now rewrite He.
    + intros now d <-. unfold isWithinTouchCompositionWindow.
      rewrite He. simpl. now rewrite andb_false_r.
Qed.

Lemma mostRecentStartTime_is_maximum_witness :
  let a : ActiveTouchesInfo.t :=
    [Some (mkActiveTouchInfo 1 30); None; Some (mkActiveTouchInfo 2 75);
     Some (mkActiveTouchInfo 3 40)] in
  ActiveTouchesInfo.isEmpty a = false
  /\ (forall r, In r (Pool.records a) -> 0 <= startTime r)
  /\ exists m,
      ActiveTouchesInfo.mostRecentStartTime a = Some m
      /\ In m (map startTime (Pool.records a))
      /\ forall r, In r (Pool.records a) -> startTime r <= m.
Proof.
  intros a.
  assert (Hne : ActiveTouchesInfo.isEmpty a = false) by reflexivity.
  assert (Hpos : forall r, In r (Pool.records a) -> 0 <= startTime r).
  { simpl. intros r [<-|[<-|[<-|[]]]]; simpl; lia. }
  split; [exact Hne|]. split; [exact Hpos|].
  exact (proj1 (mostRecentStartTime_is_maximum a) Hne Hpos).
Defined.

(** ** The public accessors *)

(** C10. In every state a recognizer reaches from any initial state by any
    sequence of deliveries, [dragging()] is true exactly when the status is
    [Recognized], [pressed()] is true exactly when the status is not
    [WaitingForTouch], and so [dragging()] implies [pressed()]. *)
Theorem dragging_pressed_follow_status :
  forall (d0 : UCDragGesturePrivate) (es : list Delivery),
    let d := fst (deliverAll es d0) in
    (dragging d = true <-> status d = Recognized)
    /\ (pressed d = true <-> status d <> WaitingForTouch)
    /\ (dragging d = true -> pressed d = true).
Proof.
  intros d0 es d. unfold dragging, pressed.
  destruct (status d); simpl; repeat split; congruence.
Qed.

(** ** Comparisons of doubles *)

Lemma negative_is_not_nonnegative (v : qreal) :
  (v <? 0)%float = true -> (0 <=? v)%float = false.
Proof.
  rewrite ltb_spec, leb_spec. unfold SFltb, SFleb.
  change (Prim2SF 0) with (S754_zero false).
  destruct (Prim2SF v) as [s | s | | s m e]; simpl;
    try discriminate; destruct s; simpl; congruence.
Qed.

(** ** Rejection *)


Lemma reject_run (d : UCDragGesturePrivate) :
  status d = Undecided ->
  rejectAction d
  = (rejected d,
     [Call (RemoveCandidateOwnerForTouch (touchId d));
      Call (AddTouchWatcher (touchId d));
      Emit (statusChanged WaitingForTouch);
      Emit (pressedChanged false)]).
Proof.
  intros H. destruct d; simpl in H; subst. reflexivity.
Qed.

Lemma watchPressedTouchPoints_state (touchPoints : list TouchPoint) :
  forall d, fst (watchPressedTouchPoints touchPoints d) = d.
Proof.
  induction touchPoints as [|tp rest IH]; intros d; simpl; [reflexivity|].
  rewrite andThen_run. rewrite IH.
  destruct (isPressed (tp_state tp)); reflexivity.
Qed.

Lemma unownedTouchEvent_when_undecided now event d :
  status d = Undecided ->
  let r := unownedTouchEvent_undecided now event d in
  status (fst (unownedTouchEvent now event d)) = status (fst r)
  /\ touchId (fst (unownedTouchEvent now event d)) = touchId (fst r)
  /\ callsOf (snd (unownedTouchEvent now event d)) = callsOf (snd r)
  /\ signalsOf (snd (unownedTouchEvent now event d)) = signalsOf (snd r).
Proof.
  intros H r. unfold unownedTouchEvent.
  rewrite !andThen_run.
  assert (E1 : forall c, fst (Q_ASSERT c d) = d).
  { intros c. unfold Q_ASSERT. destruct (c d); reflexivity. }
  assert (E2 : forall c, callsOf (snd (Q_ASSERT c d)) = []
                         /\ signalsOf (snd (Q_ASSERT c d)) = []).
  { intros c. unfold Q_ASSERT. destruct (c d); split; reflexivity. }
  rewrite !E1. rewrite H. cbn [fst snd].
  unfold updateActiveTouches, modify. cbn [fst snd].
  rewrite !callsOf_app, !signalsOf_app.
  destruct (E2 (fun _ => negb (hasPressed event))) as [-> ->].
  destruct (E2 (fun d => q_enabled d && q_visible d)) as [-> ->].
  fold r. simpl. rewrite !app_nil_r. repeat split; reflexivity.
Qed.

Lemma sampled_frame tp d :
  status (sampled tp d) = status d
  /\ touchId (sampled tp d) = touchId d
  /\ direction (sampled tp d) = direction d
  /\ activeTouches (sampled tp d) = activeTouches d
  /\ compositionTime (sampled tp d) = compositionTime d.
Proof. repeat split; reflexivity. Qed.

Lemma isWithinTouchCompositionWindow_sampled now tp d :
  isWithinTouchCompositionWindow now (sampled tp d)
  = isWithinTouchCompositionWindow now d.
Proof. reflexivity. Qed.

(** What [unownedTouchEvent_undecided] does with a sample that is not a
    release: the decision is taken on the refitted recognizer. *)
Lemma unownedTouchEvent_undecided_sample now event d tp :
  fetchTargetTouchPoint event (touchId d) = Some tp ->
  isReleased (tp_state tp) = false ->
  unownedTouchEvent_undecided now event d
  = (let s := sampled tp d in
     if negb (movingInRightDirection s) then
       (withdraw ;; watch ;; setStatus WaitingForTouch) s
     else if isWithinTouchCompositionWindow now s then (s, [])
     else if movedFarEnoughAlongGestureAxis s then
       (requestOwnership ;;
        setStatus Recognized ;;
        setPublicPos (tp_pos tp) ;;
        setPublicScenePos (tp_scenePos tp)) s
     else if isPastMaxDistance s then
       (withdraw ;; watch ;; setStatus WaitingForTouch) s
     else (s, [])).
Proof.
  intros Hf Hr. unfold unownedTouchEvent_undecided. rewrite Hf, Hr.
  rewrite andThen_run. unfold sampled.
  change (snd (updateDampedScenePos (tp_scenePos tp) d)) with (@nil Effect).
  cbn [app].
  set (s := fst (updateDampedScenePos (tp_scenePos tp) d)).
  cbv zeta.
  destruct (negb (movingInRightDirection s));
    [symmetry; apply surjective_pairing|].
  destruct (isWithinTouchCompositionWindow now s); [reflexivity|].
  destruct (movedFarEnoughAlongGestureAxis s);
    [symmetry; apply surjective_pairing|].
  destruct (isPastMaxDistance s);
    [symmetry; apply surjective_pairing|reflexivity].
Qed.

Lemma rejected_frame d :
  status (rejected d) = WaitingForTouch /\ touchId (rejected d) = touchId d.
Proof. split; reflexivity. Qed.

Lemma Q_ASSERT_run c d :
  fst (Q_ASSERT c d) = d /\ callsOf (snd (Q_ASSERT c d)) = []
  /\ signalsOf (snd (Q_ASSERT c d)) = [].
Proof. unfold Q_ASSERT. destruct (c d); repeat split; reflexivity. Qed.

Lemma touchEvent_second_touch now event d :
  status d = Undecided ->
  q_enabled d = true -> q_visible d = true ->
  hasPressed event = true ->
  isWithinTouchCompositionWindow now d = true ->
  let r := touchEvent now event d in
  status (fst r) = WaitingForTouch
  /\ touchId (fst r) = touchId d
  /\ callsOf (snd r)
     = callsOf (snd (watchPressedTouchPoints event d))
       ++ [RemoveCandidateOwnerForTouch (touchId d);
           AddTouchWatcher (touchId d)].
Proof.
  intros Hs He Hv Hp Hw r. subst r. unfold touchEvent.
  rewrite He, Hv. cbn [negb orb]. rewrite andThen_run. rewrite Hs.
  unfold touchEvent_undecided. fold rejectAction. rewrite !andThen_run.
  match goal with |- context [Q_ASSERT ?c d] =>
    destruct (Q_ASSERT_run c d) as (E1 & E2 & _) end.
  rewrite !E1. unfold effect. cbn [fst snd].
  rewrite !watchPressedTouchPoints_state. rewrite Hp, Hw. cbn [andb].
  rewrite (reject_run d Hs). cbn [fst snd].
  unfold updateActiveTouches, modify. cbn [fst snd].
  rewrite !callsOf_app. rewrite E2. simpl.
  rewrite app_nil_r. repeat split; reflexivity.
Qed.

(** C2. Whichever way a gesture is rejected while [Undecided] (a sample
    moving in the wrong direction, a sample past [maxDistance], the
    recognition timer firing, a second touch pressed within the composition
    window), the recognizer ends in [WaitingForTouch] with its touch id
    unchanged, and the last two things it asked of the broker are to
    withdraw its candidacy for that touch id and then to watch it. *)
Theorem rejection_withdraws_and_watches :
  forall (c : RejectionCause) (now : Z) (event : QTouchEvent)
         (d : UCDragGesturePrivate),
    status d = Undecided ->
    rejectedBy c now event d ->
    let r := deliver (rejectionDelivery c now event) d in
    status (fst r) = WaitingForTouch
    /\ touchId (fst r) = touchId d
    /\ exists before,
        callsOf (snd r)
        = before ++ [RemoveCandidateOwnerForTouch (touchId d);
                     AddTouchWatcher (touchId d)].
Proof.
  intros c now event d Hs Hc r. subst r.
  destruct c; cbn [rejectionDelivery deliver rejectedBy] in *.
  - destruct Hc as (tp & Hf & Hr & Hm).
    destruct (unownedTouchEvent_when_undecided now event d Hs)
      as (E1 & E2 & E3 & _).
    rewrite E1, E2, E3.
    rewrite (unownedTouchEvent_undecided_sample now event d tp Hf Hr).
    cbv zeta. rewrite Hm. cbn [negb]. fold rejectAction.
    rewrite (reject_run (sampled tp d) Hs).
    repeat split. exists []. reflexivity.
  - destruct Hc as (tp & Hf & Hr & Hm & Hw & Hfar & Hpast).
    destruct (unownedTouchEvent_when_undecided now event d Hs)
      as (E1 & E2 & E3 & _).
    rewrite E1, E2, E3.
    rewrite (unownedTouchEvent_undecided_sample now event d tp Hf Hr).
    cbv zeta. rewrite Hm. cbn [negb].
    rewrite isWithinTouchCompositionWindow_sampled, Hw, Hfar, Hpast.
    fold rejectAction. rewrite (reject_run (sampled tp d) Hs).
    repeat split. exists []. reflexivity.
  - unfold rejectGesture. rewrite Hs. cbn [Status_eqb]. fold rejectAction.
    rewrite (reject_run d Hs). repeat split. exists []. reflexivity.
  - destruct Hc as (He & Hv & Hp & Hw).
    destruct (touchEvent_second_touch now event d Hs He Hv Hp Hw)
      as (E1 & E2 & E3).
    rewrite E1, E2, E3. repeat split. eexists. reflexivity.
Qed.

Lemma rejection_withdraws_and_watches_witness :
  let timeout := deliver (rejectionDelivery TimedOut 0 []) pressedGesture in
  let second :=
    deliver (rejectionDelivery SecondTouch 10
               [touchAt 2 TouchPointPressed 30 30]) pressedGesture in
  let wrong :=
    deliver (rejectionDelivery WrongDirection 10
               [touchAt 1 TouchPointMoved (-5) 0]) pressedGesture in
  let far :=
    deliver (rejectionDelivery PastMaxDistance 100
               [touchAt 1 TouchPointMoved 0 80]) pressedGesture in
  status pressedGesture = Undecided
  /\ touchId pressedGesture = 1
  /\ (status (fst timeout) = WaitingForTouch
      /\ callsOf (snd timeout)
         = [RemoveCandidateOwnerForTouch 1; AddTouchWatcher 1])
  /\ (status (fst second) = WaitingForTouch
      /\ callsOf (snd second)
         = [AddTouchWatcher 2; RemoveCandidateOwnerForTouch 1;
            AddTouchWatcher 1])
  /\ (status (fst wrong) = WaitingForTouch
      /\ callsOf (snd wrong)
         = [RemoveCandidateOwnerForTouch 1; AddTouchWatcher 1])
  /\ (status (fst far) = WaitingForTouch
      /\ callsOf (snd far)
         = [RemoveCandidateOwnerForTouch 1; AddTouchWatcher 1]).
Proof.
  intros timeout second wrong far.
  assert (Hs : status pressedGesture = Undecided) by reflexivity.
  split; [exact Hs|]. split; [reflexivity|].
  assert (H1 : rejectedBy TimedOut 0 [] pressedGesture) by exact I.
  assert (H2 : rejectedBy SecondTouch 10 [touchAt 2 TouchPointPressed 30 30]
                          pressedGesture).
  { repeat split; reflexivity. }
  assert (H3 : rejectedBy WrongDirection 10 [touchAt 1 TouchPointMoved (-5) 0]
                          pressedGesture).
  { eexists. repeat split; reflexivity. }
  assert (H4 : rejectedBy PastMaxDistance 100 [touchAt 1 TouchPointMoved 0 80]
                          pressedGesture).
  { eexists. repeat split; reflexivity. }
  pose proof (rejection_withdraws_and_watches _ _ _ _ Hs H1) as (A1 & _ & _).
  pose proof (rejection_withdraws_and_watches _ _ _ _ Hs H2) as (A2 & _ & _).
  pose proof (rejection_withdraws_and_watches _ _ _ _ Hs H3) as (A3 & _ & _).
  pose proof (rejection_withdraws_and_watches _ _ _ _ Hs H4) as (A4 & _ & _).
  repeat split; try assumption; reflexivity.
Defined.

(** C4. A sample taken while [Undecided] with one of the four signed
    directions, whose movement since the previous sample has a negative
    scalar projection onto the direction vector, is rejected whatever the
    size of that projection: the recognizer ends in [WaitingForTouch],
    having withdrawn its candidacy and asked to watch the touch. With
    [Horizontal] or [Vertical] the direction check accepts every
    movement. *)
Theorem wrong_direction_sample_is_rejected :
  (forall (now : Z) (event : QTouchEvent) (d : UCDragGesturePrivate)
          (tp : TouchPoint),
      status d = Undecided ->
      isSigned (direction d) = true ->
      fetchTargetTouchPoint event (touchId d) = Some tp ->
      isReleased (tp_state tp) = false ->
      (projectOntoDirectionVector (sampled tp d)
         (movementVector (sampled tp d)) <? 0)%float = true ->
      let r := unownedTouchEvent now event d in
      status (fst r) = WaitingForTouch
      /\ callsOf (snd r)
         = [RemoveCandidateOwnerForTouch (touchId d);
            AddTouchWatcher (touchId d)])
  /\ (forall d : UCDragGesturePrivate,
         isSigned (direction d) = false -> movingInRightDirection d = true).
Proof.
  split.
  - intros now event d tp Hs Hd Hf Hr Hneg r. subst r.
    assert (Hm : movingInRightDirection (sampled tp d) = false).
    { unfold movingInRightDirection.
      change (direction (sampled tp d)) with (direction d).
      destruct (direction d); try discriminate Hd;
        now apply negative_is_not_nonnegative. }
    destruct (unownedTouchEvent_when_undecided now event d Hs)
      as (E1 & _ & E3 & _).
    rewrite E1, E3.
    rewrite (unownedTouchEvent_undecided_sample now event d tp Hf Hr).
    cbv zeta. rewrite Hm. cbn [negb]. fold rejectAction.
    rewrite (reject_run (sampled tp d) Hs). split; reflexivity.
  - intros d Hd. unfold movingInRightDirection.
    destruct (direction d); try discriminate Hd; reflexivity.
Qed.

Lemma wrong_direction_sample_is_rejected_witness :
  let event := [touchAt 1 TouchPointMoved (-5) 0] in
  let tp := touchAt 1 TouchPointMoved (-5) 0 in
  let r := unownedTouchEvent 10 event pressedGesture in
  (status pressedGesture = Undecided
   /\ isSigned (direction pressedGesture) = true
   /\ fetchTargetTouchPoint event (touchId pressedGesture) = Some tp
   /\ isReleased (tp_state tp) = false
   /\ (projectOntoDirectionVector (sampled tp pressedGesture)
         (movementVector (sampled tp pressedGesture)) <? 0)%float = true)
  /\ status (fst r) = WaitingForTouch
  /\ callsOf (snd r)
     = [RemoveCandidateOwnerForTouch (touchId pressedGesture);
        AddTouchWatcher (touchId pressedGesture)].
Proof.
  intros event tp r.
  assert (H : status pressedGesture = Undecided
              /\ isSigned (direction pressedGesture) = true
              /\ fetchTargetTouchPoint event (touchId pressedGesture) = Some tp
              /\ isReleased (tp_state tp) = false
              /\ (projectOntoDirectionVector (sampled tp pressedGesture)
                    (movementVector (sampled tp pressedGesture)) <? 0)%float
                 = true).
  { repeat split; reflexivity. }
  split; [exact H|].
  destruct H as (H1 & H2 & H3 & H4 & H5).
  exact (proj1 wrong_direction_sample_is_rejected
               10 event pressedGesture tp H1 H2 H3 H4 H5).
Defined.

(** ** Recognition *)

(** Case analysis on every condition an action tests. *)
Ltac split_conditions :=
  repeat (cbn;
          match goal with
          | |- context [if ?c then _ else _] => destruct c
          end);
  cbn.

Lemma setPublicPos_frame point d :
  status (fst (setPublicPos point d)) = status d
  /\ touchId (fst (setPublicPos point d)) = touchId d
  /\ callsOf (snd (setPublicPos point d)) = [].
Proof.
  unfold setPublicPos, andThen, Q_ASSERT, modify, effect, skip.
  split_conditions; repeat split; reflexivity.
Qed.

Lemma setPublicScenePos_frame point d :
  status (fst (setPublicScenePos point d)) = status d
  /\ touchId (fst (setPublicScenePos point d)) = touchId d
  /\ callsOf (snd (setPublicScenePos point d)) = [].
Proof.
  unfold setPublicScenePos, andThen, Q_ASSERT, modify, effect, skip,
    updateSceneDistance.
  split_conditions; repeat split; reflexivity.
Qed.

Lemma setStatus_frame newStatus d :
  status (fst (setStatus newStatus d)) = newStatus
  /\ touchId (fst (setStatus newStatus d)) = touchId d
  /\ callsOf (snd (setStatus newStatus d)) = [].
Proof.
  unfold setStatus, andThen, modify, effect, skip.
  destruct newStatus; destruct (status d) eqn:E; cbn;
    repeat split; try reflexivity; exact E.
Qed.

Lemma recognize_run pos scenePos d :
  let r := (requestOwnership ;;
            setStatus Recognized ;;
            setPublicPos pos ;;
            setPublicScenePos scenePos) d in
  status (fst r) = Recognized
  /\ touchId (fst r) = touchId d
  /\ callsOf (snd r) = [RequestTouchOwnership (touchId d)].
Proof.
  intros r. subst r. rewrite !andThen_run. cbn [fst snd].
  rewrite !callsOf_app.
  repeat match goal with
         | |- context [setPublicScenePos ?p ?x] =>
             let A := fresh in let B := fresh in let C := fresh in
             destruct (setPublicScenePos_frame p x) as (A & B & C);
             rewrite ?A, ?B, ?C; clear A B C
         end.
  repeat match goal with
         | |- context [setPublicPos ?p ?x] =>
             let A := fresh in let B := fresh in let C := fresh in
             destruct (setPublicPos_frame p x) as (A & B & C);
             rewrite ?A, ?B, ?C; clear A B C
         end.
  repeat match goal with
         | |- context [setStatus ?p ?x] =>
             let A := fresh in let B := fresh in let C := fresh in
             destruct (setStatus_frame p x) as (A & B & C);
             rewrite ?A, ?B, ?C; clear A B C
         end.
  repeat split; reflexivity.
Qed.

Lemma exceeds_movedFarEnough d :
  exceedsDistanceThreshold d = true ->
  movedFarEnoughAlongGestureAxis d = true.
Proof.
  unfold exceedsDistanceThreshold, movedFarEnoughAlongGestureAxis.
  destruct (distanceThreshold d <=? 0)%float; [reflexivity|].
  destruct (direction d); cbn; trivial.
Qed.

(** C3, as the code has it. A sample taken while [Undecided] that is not a
    release and does not move against the configured direction, once the
    composition window has elapsed: if the movement of the damped position
    since the start, projected onto the direction vector, exceeds
    [distanceThreshold] (in absolute value for [Horizontal] and [Vertical],
    as it is for the signed directions), the recognizer becomes
    [Recognized] and asks the broker for the ownership of its touch. *)
Theorem far_enough_sample_is_recognized :
  forall (now : Z) (event : QTouchEvent) (d : UCDragGesturePrivate)
         (tp : TouchPoint),
    status d = Undecided ->
    fetchTargetTouchPoint event (touchId d) = Some tp ->
    isReleased (tp_state tp) = false ->
    movingInRightDirection (sampled tp d) = true ->
    isWithinTouchCompositionWindow now d = false ->
    exceedsDistanceThreshold (sampled tp d) = true ->
    let r := unownedTouchEvent now event d in
    status (fst r) = Recognized
    /\ callsOf (snd r) = [RequestTouchOwnership (touchId d)].
Proof.
  intros now event d tp Hs Hf Hr Hm Hw He r. subst r.
  destruct (unownedTouchEvent_when_undecided now event d Hs)
    as (E1 & _ & E3 & _).
  rewrite E1, E3.
  rewrite (unownedTouchEvent_undecided_sample now event d tp Hf Hr).
  cbv zeta. rewrite Hm. cbn [negb].
  rewrite isWithinTouchCompositionWindow_sampled, Hw.
  rewrite (exceeds_movedFarEnough _ He).
  destruct (recognize_run (tp_pos tp) (tp_scenePos tp) (sampled tp d))
    as (A & _ & C).
  split; [exact A | exact C].
Qed.

Lemma far_enough_sample_is_recognized_witness :
  let event := [touchAt 1 TouchPointMoved 16 0] in
  let tp := touchAt 1 TouchPointMoved 16 0 in
  let r := unownedTouchEvent 100 event driftedGesture in
  (status driftedGesture = Undecided
   /\ fetchTargetTouchPoint event (touchId driftedGesture) = Some tp
   /\ isReleased (tp_state tp) = false
   /\ movingInRightDirection (sampled tp driftedGesture) = true
   /\ isWithinTouchCompositionWindow 100 driftedGesture = false
   /\ exceedsDistanceThreshold (sampled tp driftedGesture) = true)
  /\ status (fst r) = Recognized
  /\ callsOf (snd r) = [RequestTouchOwnership (touchId driftedGesture)].
Proof.
  intros event tp r.
  assert (H : status driftedGesture = Undecided
   /\ fetchTargetTouchPoint event (touchId driftedGesture) = Some tp
   /\ isReleased (tp_state tp) = false
   /\ movingInRightDirection (sampled tp driftedGesture) = true
   /\ isWithinTouchCompositionWindow 100 driftedGesture = false
   /\ exceedsDistanceThreshold (sampled tp driftedGesture) = true).
  { repeat split; reflexivity. }
  split; [exact H|].
  destruct H as (H1 & H2 & H3 & H4 & H5 & H6).
  exact (far_enough_sample_is_recognized
           100 event driftedGesture tp H1 H2 H3 H4 H5 H6).
Defined.

(** C3 as it is stated fails: 100 ms after the press the composition window
    has elapsed and the damped position is 14 along the axis, beyond the
    threshold of 10, yet the sample moved back by 1 from the previous one
    and the gesture is rejected, with no request for ownership. *)
Lemma far_enough_sample_moving_back_is_rejected :
  status driftedGesture = Undecided
  /\ fetchTargetTouchPoint [touchAt 1 TouchPointMoved 14 0]
                           (touchId driftedGesture)
     = Some (touchAt 1 TouchPointMoved 14 0)
  /\ isWithinTouchCompositionWindow 100 driftedGesture = false
  /\ exceedsDistanceThreshold
       (sampled (touchAt 1 TouchPointMoved 14 0) driftedGesture) = true
  /\ status (fst (unownedTouchEvent 100 [touchAt 1 TouchPointMoved 14 0]
                                    driftedGesture))
     = WaitingForTouch
  /\ callsOf (snd (unownedTouchEvent 100 [touchAt 1 TouchPointMoved 14 0]
                                     driftedGesture))
     = [RemoveCandidateOwnerForTouch 1; AddTouchWatcher 1].
Proof. repeat split; reflexivity. Qed.

(** ** Rejection past the maximum distance *)

(** C5, as the code has it. A sample taken while [Undecided] that is not a
    release, once the composition window has elapsed: if the damped
    position is farther from the start than [maxDistance] (the code compares
    the squares) and the threshold has not been crossed, the gesture is
    rejected: the recognizer ends in [WaitingForTouch], having withdrawn its
    candidacy and asked to watch the touch. *)
Theorem past_max_distance_sample_is_rejected :
  forall (now : Z) (event : QTouchEvent) (d : UCDragGesturePrivate)
         (tp : TouchPoint),
    status d = Undecided ->
    fetchTargetTouchPoint event (touchId d) = Some tp ->
    isReleased (tp_state tp) = false ->
    isWithinTouchCompositionWindow now d = false ->
    movedFarEnoughAlongGestureAxis (sampled tp d) = false ->
    isPastMaxDistance (sampled tp d) = true ->
    let r := unownedTouchEvent now event d in
    status (fst r) = WaitingForTouch
    /\ callsOf (snd r)
       = [RemoveCandidateOwnerForTouch (touchId d);
          AddTouchWatcher (touchId d)].
Proof.
  intros now event d tp Hs Hf Hr Hw Hfar Hpast r. subst r.
  destruct (unownedTouchEvent_when_undecided now event d Hs)
    as (E1 & _ & E3 & _).
  rewrite E1, E3.
  rewrite (unownedTouchEvent_undecided_sample now event d tp Hf Hr).
  cbv zeta. fold rejectAction.
  rewrite isWithinTouchCompositionWindow_sampled, Hw, Hfar, Hpast.
  rewrite (reject_run (sampled tp d) Hs).
  destruct (negb (movingInRightDirection (sampled tp d)));
    split; reflexivity.
Qed.

Lemma past_max_distance_sample_is_rejected_witness :
  let event := [touchAt 1 TouchPointMoved 0 80] in
  let tp := touchAt 1 TouchPointMoved 0 80 in
  let r := unownedTouchEvent 100 event pressedGesture in
  (status pressedGesture = Undecided
   /\ fetchTargetTouchPoint event (touchId pressedGesture) = Some tp
   /\ isReleased (tp_state tp) = false
   /\ isWithinTouchCompositionWindow 100 pressedGesture = false
   /\ movedFarEnoughAlongGestureAxis (sampled tp pressedGesture) = false
   /\ isPastMaxDistance (sampled tp pressedGesture) = true)
  /\ status (fst r) = WaitingForTouch
  /\ callsOf (snd r)
     = [RemoveCandidateOwnerForTouch (touchId pressedGesture);
        AddTouchWatcher (touchId pressedGesture)].
Proof.
  intros event tp r.
  assert (H : status pressedGesture = Undecided
   /\ fetchTargetTouchPoint event (touchId pressedGesture) = Some tp
   /\ isReleased (tp_state tp) = false
   /\ isWithinTouchCompositionWindow 100 pressedGesture = false
   /\ movedFarEnoughAlongGestureAxis (sampled tp pressedGesture) = false
   /\ isPastMaxDistance (sampled tp pressedGesture) = true).
  { repeat split; reflexivity. }
  split; [exact H|].
  destruct H as (H1 & H2 & H3 & H4 & H5 & H6).
  exact (past_max_distance_sample_is_rejected
           100 event pressedGesture tp H1 H2 H3 H4 H5 H6).
Defined.

(** C5 as it is stated fails: 10 ms after the press the damped position is
    80 away from the start, beyond the [maxDistance] of 50, and the
    threshold has not been crossed, yet the composition window is still
    open: the gesture stays [Undecided] and nothing is asked of the
    broker. *)
Lemma past_max_distance_within_window_is_kept :
  status pressedGesture = Undecided
  /\ fetchTargetTouchPoint [touchAt 1 TouchPointMoved 0 80]
                           (touchId pressedGesture)
     = Some (touchAt 1 TouchPointMoved 0 80)
  /\ movedFarEnoughAlongGestureAxis
       (sampled (touchAt 1 TouchPointMoved 0 80) pressedGesture) = false
  /\ isPastMaxDistance
       (sampled (touchAt 1 TouchPointMoved 0 80) pressedGesture) = true
  /\ status (fst (unownedTouchEvent 10 [touchAt 1 TouchPointMoved 0 80]
                                    pressedGesture))
     = Undecided
  /\ callsOf (snd (unownedTouchEvent 10 [touchAt 1 TouchPointMoved 0 80]
                                     pressedGesture))
     = [].
Proof. repeat split; reflexivity. Qed.

(** ** The composition window *)

Lemma isWithinTouchCompositionWindow_iff now d :
  isWithinTouchCompositionWindow now d = true
  <-> (0 < compositionTime d
       /\ ActiveTouchesInfo.isEmpty (activeTouches d) = false
       /\ exists mostRecent,
           ActiveTouchesInfo.mostRecentStartTime (activeTouches d)
           = Some mostRecent
           /\ now <= wrap64 (mostRecent + compositionTime d)).
Proof.
  unfold isWithinTouchCompositionWindow.
  rewrite !andb_true_iff, negb_true_iff, Z.gtb_ltb, Z.ltb_lt.
  destruct (ActiveTouchesInfo.mostRecentStartTime (activeTouches d)) as [m|].
  - rewrite Z.leb_le. split.
    + intros [[H1 H2] H3]. repeat split; trivial. now exists m.
    + intros (H1 & H2 & m' & Hm & H3). inversion Hm; subst.
      repeat split; trivial.
  - split.
    + intros [_ H]. discriminate H.
    + intros (_ & _ & m & Hm & _). discriminate Hm.
Qed.

(** C6, as the code has it. While [Undecided], the evaluation of the
    threshold and of the maximum distance is deferred exactly when
    [compositionTime] is positive, the registry of active touches is not
    empty and the current time is at most the most recent start time plus
    [compositionTime] (a 64-bit sum). Until then a sample that is not a
    release and does not move against the configured direction leaves the
    recognizer [Undecided], with its damped position refit and nothing asked
    of the broker. *)
Theorem recognition_waits_for_composition_window :
  forall (now : Z) (event : QTouchEvent) (d : UCDragGesturePrivate)
         (tp : TouchPoint),
    status d = Undecided ->
    fetchTargetTouchPoint event (touchId d) = Some tp ->
    isReleased (tp_state tp) = false ->
    movingInRightDirection (sampled tp d) = true ->
    0 < compositionTime d ->
    ActiveTouchesInfo.isEmpty (activeTouches d) = false ->
    (exists mostRecent,
        ActiveTouchesInfo.mostRecentStartTime (activeTouches d)
        = Some mostRecent
        /\ now <= wrap64 (mostRecent + compositionTime d)) ->
    let r := unownedTouchEvent now event d in
    isWithinTouchCompositionWindow now d = true
    /\ unownedTouchEvent_undecided now event d = (sampled tp d, [])
    /\ status (fst r) = Undecided
    /\ callsOf (snd r) = []
    /\ signalsOf (snd r) = [].
Proof.
  intros now event d tp Hs Hf Hr Hm Hc He Ht r. subst r.
  assert (Hw : isWithinTouchCompositionWindow now d = true).
  { apply isWithinTouchCompositionWindow_iff. auto. }
  destruct (unownedTouchEvent_when_undecided now event d Hs)
    as (E1 & _ & E3 & E4).
  rewrite E1, E3, E4.
  rewrite (unownedTouchEvent_undecided_sample now event d tp Hf Hr).
  cbv zeta. rewrite Hm. cbn [negb].
  rewrite isWithinTouchCompositionWindow_sampled, Hw.
  repeat split; trivial.
Qed.

Lemma recognition_waits_for_composition_window_witness :
  let event := [touchAt 1 TouchPointMoved 0 80] in
  let tp := touchAt 1 TouchPointMoved 0 80 in
  let r := unownedTouchEvent 10 event pressedGesture in
  (status pressedGesture = Undecided
   /\ fetchTargetTouchPoint event (touchId pressedGesture) = Some tp
   /\ isReleased (tp_state tp) = false
   /\ movingInRightDirection (sampled tp pressedGesture) = true
   /\ 0 < compositionTime pressedGesture
   /\ ActiveTouchesInfo.isEmpty (activeTouches pressedGesture) = false
   /\ (exists mostRecent,
          ActiveTouchesInfo.mostRecentStartTime (activeTouches pressedGesture)
          = Some mostRecent
          /\ 10 <= wrap64 (mostRecent + compositionTime pressedGesture)))
  /\ isWithinTouchCompositionWindow 10 pressedGesture = true
  /\ unownedTouchEvent_undecided 10 event pressedGesture
     = (sampled tp pressedGesture, [])
  /\ status (fst r) = Undecided
  /\ callsOf (snd r) = []
  /\ signalsOf (snd r) = [].
Proof.
  intros event tp r.
  assert (H : status pressedGesture = Undecided
   /\ fetchTargetTouchPoint event (touchId pressedGesture) = Some tp
   /\ isReleased (tp_state tp) = false
   /\ movingInRightDirection (sampled tp pressedGesture) = true
   /\ 0 < compositionTime pressedGesture
   /\ ActiveTouchesInfo.isEmpty (activeTouches pressedGesture) = false
   /\ (exists mostRecent,
          ActiveTouchesInfo.mostRecentStartTime (activeTouches pressedGesture)
          = Some mostRecent
          /\ 10 <= wrap64 (mostRecent + compositionTime pressedGesture))).
  { repeat split; try reflexivity.
    exists 0. split; [reflexivity | vm_compute; discriminate]. }
  split; [exact H|].
  destruct H as (H1 & H2 & H3 & H4 & H5 & H6 & H7).
  exact (recognition_waits_for_composition_window
           10 event pressedGesture tp H1 H2 H3 H4 H5 H6 H7).
Defined.

(** C6 as it is stated fails: 10 ms after the press the composition window
    is open, yet a sample that moves against the direction ends the gesture
    in [WaitingForTouch]. *)
Lemma wrong_direction_within_window_is_rejected :
  status pressedGesture = Undecided
  /\ isWithinTouchCompositionWindow 10 pressedGesture = true
  /\ status (fst (unownedTouchEvent 10 [touchAt 1 TouchPointMoved (-5) 0]
                                    pressedGesture))
     = WaitingForTouch.
Proof. repeat split; reflexivity. Qed.

(** ** A press with an inconsistent configuration *)

Lemma findNewTouchPoint_stopped touchPoints newTouchPoint :
  findNewTouchPoint touchPoints false newTouchPoint = (false, newTouchPoint).
Proof. destruct touchPoints; reflexivity. Qed.

Lemma findNewTouchPoint_allGood touchPoints :
  forall newTouchPoint,
    fst (findNewTouchPoint touchPoints true newTouchPoint)
    = (pressedCount touchPoints
       + match newTouchPoint with Some _ => 1 | None => 0 end <=? 1)%nat.
Proof.
  unfold pressedCount.
  induction touchPoints as [|tp rest IH]; intros newTouchPoint.
  - destruct newTouchPoint; reflexivity.
  - cbn [findNewTouchPoint filter].
    destruct (isPressed (tp_state tp)); cbn [length].
    + destruct newTouchPoint as [p|].
      * rewrite findNewTouchPoint_stopped. cbn [fst].
        symmetry. apply Nat.leb_gt. lia.
      * rewrite IH. f_equal. lia.
    + apply IH.
Qed.

Lemma hasPressed_pressedCount event :
  hasPressed event = true <-> (1 <= pressedCount event)%nat.
Proof.
  unfold hasPressed, pressedCount.
  induction event as [|tp rest IH]; cbn [existsb filter].
  - cbn. split; [discriminate | lia].
  - destruct (isPressed (tp_state tp)); cbn [orb length]; [|exact IH].
    split; [lia | reflexivity].
Qed.

Lemma watchPressedTouchPoints_log touchPoints :
  forall d e,
    In e (snd (watchPressedTouchPoints touchPoints d)) ->
    exists id, e = Call (AddTouchWatcher id).
Proof.
  induction touchPoints as [|tp rest IH]; intros d e; cbn [watchPressedTouchPoints].
  - intros [].
  - rewrite andThen_run. cbn [snd]. rewrite in_app_iff. intros [H|H].
    + destruct (isPressed (tp_state tp)); cbn in H; [|contradiction].
      destruct H as [<-|[]]. eauto.
    + eapply IH; eauto.
Qed.

(** What [touchEvent] does with a press when the recognition properties are
    inconsistent. *)
Lemma touchEvent_press_declined now event d :
  status d = WaitingForTouch ->
  q_enabled d = true -> q_visible d = true ->
  hasPressed event = true ->
  sanityCheckRecognitionProperties d = false ->
  touchEvent now event d
  = (set_activeTouches (ActiveTouchesInfo.update now event (activeTouches d)) d,
     (if negb (isWithinTouchCompositionWindow now d)
         && (pressedCount event <=? 1)%nat
      then [qWarning] else [])
     ++ snd (watchPressedTouchPoints event d) ++ [EventIgnore]).
Proof.
  intros Hs He Hv Hp Hsane. unfold touchEvent.
  rewrite He, Hv. cbn [negb orb]. rewrite andThen_run. rewrite Hs.
  unfold touchEvent_absent. rewrite Hp. cbn [negb].
  pose proof (findNewTouchPoint_allGood event None) as Hall.
  rewrite Nat.add_0_r in Hall.
  destruct (isWithinTouchCompositionWindow now d); cbn [negb andb].
  - rewrite findNewTouchPoint_stopped. rewrite !andThen_run.
    unfold skip, effect, updateActiveTouches, modify. cbn [fst snd app].
    rewrite !watchPressedTouchPoints_state. rewrite app_nil_r. reflexivity.
  - destruct (findNewTouchPoint event true None) as [allGood newTouchPoint].
    cbn [fst] in Hall. subst allGood.
    destruct (pressedCount event <=? 1)%nat.
    + rewrite Hsane. cbn [negb]. rewrite !andThen_run.
      unfold skip, effect, updateActiveTouches, modify. cbn [fst snd app].
      rewrite !watchPressedTouchPoints_state. rewrite app_nil_r. reflexivity.
    + rewrite !andThen_run.
      unfold skip, effect, updateActiveTouches, modify. cbn [fst snd app].
      rewrite !watchPressedTouchPoints_state. rewrite app_nil_r. reflexivity.
Qed.

(** C7, as the code has it. When a press reaches an enabled and visible
    recognizer that is [WaitingForTouch] and whose recognition properties
    are inconsistent, the recognizer does not start to evaluate a gesture:
    it stays [WaitingForTouch], the event is ignored and never accepted, and
    all it asks of the broker is to watch the pressed touches (no candidacy,
    no ownership). The diagnostic is emitted exactly when the press would
    otherwise have started a gesture: it is outside the composition window
    and the only press of its event. *)
Theorem inconsistent_configuration_declines_press :
  forall (now : Z) (event : QTouchEvent) (d : UCDragGesturePrivate),
    status d = WaitingForTouch ->
    q_enabled d = true -> q_visible d = true ->
    hasPressed event = true ->
    sanityCheckRecognitionProperties d = false ->
    let r := touchEvent now event d in
    status (fst r) = WaitingForTouch
    /\ In EventIgnore (snd r)
    /\ (In EventAccept (snd r) -> False)
    /\ (forall c, In c (callsOf (snd r)) -> exists id, c = AddTouchWatcher id)
    /\ (In qWarning (snd r)
        <-> isWithinTouchCompositionWindow now d = false
            /\ pressedCount event = 1%nat).
Proof.
  intros now event d Hs He Hv Hp Hsane r. subst r.
  rewrite (touchEvent_press_declined now event d Hs He Hv Hp Hsane).
  cbn [fst snd].
  assert (Hwatch : forall e, In e (snd (watchPressedTouchPoints event d)) ->
                             exists id, e = Call (AddTouchWatcher id))
    by (intros e; apply watchPressedTouchPoints_log).
  assert (Hcount := proj1 (hasPressed_pressedCount event) Hp).
  split; [exact Hs|]. split; [|split; [|split]].
  - rewrite !in_app_iff. right. right. now left.
  - rewrite !in_app_iff. intros [H|[H|H]].
    + destruct (_ && _); cbn in H; [destruct H as [H|[]]; discriminate H | contradiction].
    + destruct (Hwatch _ H) as [id Hid]. discriminate Hid.
    + destruct H as [H|[]]. discriminate H.
  - intros c. rewrite !callsOf_app. rewrite !in_app_iff.
    assert (Hc : forall l, (forall e, In e l -> exists id, e = Call (AddTouchWatcher id)) ->
                           In c (callsOf l) -> exists id, c = AddTouchWatcher id).
    { induction l as [|e l IH]; cbn; [contradiction|].
      intros Hl. destruct e; cbn; try (apply IH; intros; apply Hl; now right).
      intros [<-|H].
      - destruct (Hl _ (or_introl eq_refl)) as [id Hid]. inversion Hid. eauto.
      - apply IH; trivial. intros; apply Hl; now right. }
    intros [H|[H|H]].
    + destruct (_ && _); cbn in H; contradiction.
    + now apply (Hc _ Hwatch).
    + cbn in H. contradiction.
  - rewrite !in_app_iff. split.
    + intros [H|[H|H]].
      * destruct (isWithinTouchCompositionWindow now d); cbn in H;
          [contradiction|].
        destruct (pressedCount event <=? 1)%nat eqn:E; cbn in H;
          [|contradiction].
        apply Nat.leb_le in E. split; [reflexivity | lia].
      * destruct (Hwatch _ H) as [id Hid]. discriminate Hid.
      * destruct H as [H|[]]. discriminate H.
    + intros [-> ->]. left. cbn. now left.
Qed.

Lemma inconsistent_configuration_declines_press_witness :
  let event := [touchAt 1 TouchPointPressed 0 0] in
  let r := touchEvent 0 event misconfiguredGesture in
  (status misconfiguredGesture = WaitingForTouch
   /\ q_enabled misconfiguredGesture = true
   /\ q_visible misconfiguredGesture = true
   /\ hasPressed event = true
   /\ sanityCheckRecognitionProperties misconfiguredGesture = false)
  /\ status (fst r) = WaitingForTouch
  /\ In EventIgnore (snd r)
  /\ (In EventAccept (snd r) -> False)
  /\ (forall c, In c (callsOf (snd r)) -> exists id, c = AddTouchWatcher id)
  /\ (In qWarning (snd r)
      <-> isWithinTouchCompositionWindow 0 misconfiguredGesture = false
          /\ pressedCount event = 1%nat).
Proof.
  intros event r.
  assert (H : status misconfiguredGesture = WaitingForTouch
   /\ q_enabled misconfiguredGesture = true
   /\ q_visible misconfiguredGesture = true
   /\ hasPressed event = true
   /\ sanityCheckRecognitionProperties misconfiguredGesture = false).
  { repeat split; reflexivity. }
  split; [exact H|].
  destruct H as (H1 & H2 & H3 & H4 & H5).
  exact (inconsistent_configuration_declines_press
           0 event misconfiguredGesture H1 H2 H3 H4 H5).
Defined.

(** C7 as it is stated fails: touch 2 is pressed 10 ms after touch 1, within
    the composition window, on a recognizer whose threshold of 60 is not
    below its [maxDistance] of 50. The press is declined, and no diagnostic
    is emitted. *)
Lemma press_within_window_is_declined_silently :
  status misconfiguredPressed = WaitingForTouch
  /\ q_enabled misconfiguredPressed = true
  /\ q_visible misconfiguredPressed = true
  /\ recognitionIsDisabled misconfiguredPressed = false
  /\ sanityCheckRecognitionProperties misconfiguredPressed = false
  /\ hasPressed [touchAt 2 TouchPointPressed 30 30] = true
  /\ touchEvent 10 [touchAt 2 TouchPointPressed 30 30] misconfiguredPressed
     = (set_activeTouches
          (ActiveTouchesInfo.addTouchPoint 10 2
             (activeTouches misconfiguredPressed))
          misconfiguredPressed,
        [Call (AddTouchWatcher 2); EventIgnore]).
Proof. repeat split; reflexivity. Qed.

(** ** Notifications *)

(** C8 fails on a press: a recognizer that has never been touched receives
    a press at (5, 5). [distance()] is 0 before and 0 after, yet
    [distanceChanged] is emitted, and [touchPosChanged] is emitted twice
    for the one change of position, the second time with the value that
    the first has already announced. *)
Lemma press_notifies_without_change :
  distance exampleGesture = 0%float
  /\ distance (fst (touchEvent 0 [touchAt 1 TouchPointPressed 5 5]
                               exampleGesture)) = 0%float
  /\ signalsOf (snd (touchEvent 0 [touchAt 1 TouchPointPressed 5 5]
                                exampleGesture))
     = [touchPosChanged (mkPoint 5 5);
        distanceChanged 0%float;
        touchPosChanged (mkPoint 5 5);
        touchScenePosChanged (mkPoint 5 5);
        statusChanged Undecided;
        pressedChanged true].
Proof. repeat split; reflexivity. Qed.

(** ** Single ownership *)

Lemma forTouch_nil_not_in id (l : list TouchRegistry.Entry) :
  TouchRegistry.forTouch id l = [] -> ~ In id (map fst l).
Proof.
  unfold TouchRegistry.forTouch.
  induction l as [|[i q] l IH]; cbn; [tauto|].
  destruct (i =? id) eqn:E; cbn; [discriminate|].
  intros H [H1|H1]; [apply Z.eqb_neq in E; contradiction | now apply IH].
Qed.

Lemma forTouch_hd id q (l : list TouchRegistry.Entry) :
  hd_error (TouchRegistry.forTouch id l) = None ->
  hd_error (TouchRegistry.forTouch id (l ++ [(id, q)])) = Some q.
Proof.
  unfold TouchRegistry.forTouch.
  induction l as [|[i p] l IH]; cbn.
  - intros _. rewrite Z.eqb_refl. reflexivity.
  - destruct (i =? id); cbn; [discriminate | exact IH].
Qed.

Lemma NoDup_map_fst_filter (f : TouchRegistry.Entry -> bool) l :
  NoDup (map fst l) -> NoDup (map fst (filter f l)).
Proof.
  induction l as [|e l IH]; cbn; [trivial|].
  intros H. inversion H as [|? ? Hn Hd]; subst.
  destruct (f e); cbn; [|now apply IH].
  constructor; [|now apply IH].
  intros Hin. apply Hn. apply in_map_iff in Hin.
  destruct Hin as (x & Hx & Hin). apply filter_In in Hin.
  apply in_map_iff. exists x. tauto.
Qed.

Lemma NoDup_map_fst_functional (l : list TouchRegistry.Entry) id q1 q2 :
  NoDup (map fst l) -> In (id, q1) l -> In (id, q2) l -> q1 = q2.
Proof.
  induction l as [|e l IH]; cbn; [tauto|].
  intros H. inversion H as [|? ? Hn Hd]; subst.
  intros [->|H1] [H2|H2].
  - congruence.
  - exfalso. apply Hn. apply in_map_iff. now exists (id, q2).
  - subst e. exfalso. apply Hn. apply in_map_iff. now exists (id, q1).
  - now apply IH.
Qed.

Lemma call_ownersUnique q c r :
  TouchRegistry.ownersUnique r ->
  TouchRegistry.ownersUnique (fst (TouchRegistry.call q c r)).
Proof.
  unfold TouchRegistry.ownersUnique. intros H.
  destruct c as [id|id|id|id]; cbn.
  - unfold TouchRegistry.addCandidateOwnerForTouch.
    destruct (existsb _ _); exact H.
  - exact H.
  - unfold TouchRegistry.requestTouchOwnership.
    destruct (TouchRegistry.owner id r) eqn:E; cbn; [exact H|].
    rewrite map_app. cbn. apply NoDup_app; trivial.
    + constructor; [intros []|constructor].
    + intros a Ha [Ea|[]]. subst a. revert Ha. apply forTouch_nil_not_in.
      unfold TouchRegistry.owner in E.
      destruct (TouchRegistry.forTouch id (TouchRegistry.owners r));
        [reflexivity | discriminate E].
  - unfold TouchRegistry.addTouchWatcher.
    destruct (existsb _ _); exact H.
Qed.

Lemma recordCalls_ownersUnique q calls :
  forall r,
    TouchRegistry.ownersUnique r ->
    TouchRegistry.ownersUnique (recordCalls q calls r).
Proof.
  unfold recordCalls.
  induction calls as [|c calls IH]; intros r H; cbn; [exact H|].
  apply IH. now apply call_ownersUnique.
Qed.

Lemma sendOwnershipEvent_ownersUnique n s :
  systemOwnersUnique s -> systemOwnersUnique (sendOwnershipEvent n s).
Proof.
  unfold systemOwnersUnique, sendOwnershipEvent. intros H.
  destruct (nth_error (recognizers s) (fst n)) as [d|]; [|exact H].
  destruct (touchOwnershipEvent (snd n) d) as [d' log]. cbn.
  now apply recordCalls_ownersUnique.
Qed.

Lemma sendOwnershipEvents_ownersUnique ns :
  forall s,
    systemOwnersUnique s -> systemOwnersUnique (sendOwnershipEvents ns s).
Proof.
  unfold sendOwnershipEvents.
  induction ns as [|n ns IH]; intros s H; cbn; [exact H|].
  apply IH. now apply sendOwnershipEvent_ownersUnique.
Qed.

Lemma performCall_ownersUnique q c s :
  systemOwnersUnique s -> systemOwnersUnique (performCall q c s).
Proof.
  unfold performCall. intros H.
  pose proof (call_ownersUnique q c (registry s) H) as H1.
  destruct (TouchRegistry.call q c (registry s)) as [r' ns].
  apply sendOwnershipEvents_ownersUnique. exact H1.
Qed.

Lemma performCalls_ownersUnique q calls :
  forall s,
    systemOwnersUnique s -> systemOwnersUnique (performCalls q calls s).
Proof.
  unfold performCalls.
  induction calls as [|c calls IH]; intros s H; cbn; [exact H|].
  apply IH. now apply performCall_ownersUnique.
Qed.

Lemma step_ownersUnique s e :
  systemOwnersUnique s -> systemOwnersUnique (step s e).
Proof.
  intros H. destruct e as [q e|id]; cbn.
  - destruct (nth_error (recognizers s) q) as [d|]; [|exact H].
    destruct (fromOutside e); [|exact H].
    destruct (deliver e d) as [d' log].
    apply performCalls_ownersUnique. exact H.
  - unfold systemOwnersUnique, TouchRegistry.ownersUnique. cbn.
    unfold TouchRegistry.notForTouch. now apply NoDup_map_fst_filter.
Qed.

Lemma run_ownersUnique events :
  forall s, systemOwnersUnique s -> systemOwnersUnique (run events s).
Proof.
  unfold run.
  induction events as [|e events IH]; intros s H; cbn; [exact H|].
  apply IH. now apply step_ownersUnique.
Qed.

Lemma nth_error_replaceNth_other {A : Type} (v : A) l :
  forall n m, n <> m -> nth_error (replaceNth n v l) m = nth_error l m.
Proof.
  induction l as [|a l IH]; intros n m H; [now destruct n|].
  destruct n, m; cbn; try reflexivity; try congruence.
  apply IH. congruence.
Qed.

Lemma nth_error_replaceNth_same {A : Type} (v : A) l :
  forall n d,
    nth_error (replaceNth n v l) n = Some d -> d = v.
Proof.
  induction l as [|a l IH]; intros n d; [now destruct n|].
  destruct n; cbn; [congruence | apply IH].
Qed.

Lemma touchOwnershipEvent_run e d :
  touchOwnershipEvent e d
  = if gained e then (d, [GrabTouchPoints [toe_touchId e]])
    else (fst (setStatus WaitingForTouch d),
          Call (AddTouchWatcher (touchId d))
               :: snd (setStatus WaitingForTouch d)).
Proof.
  unfold touchOwnershipEvent. destruct (gained e); [reflexivity|].
  rewrite andThen_run. reflexivity.
Qed.

Lemma sendOwnershipEvent_lost q e s :
  gained e = false -> waitingAt (sendOwnershipEvent (q, e) s) q.
Proof.
  intros He d. unfold sendOwnershipEvent. cbn [fst snd].
  destruct (nth_error (recognizers s) q) as [d0|] eqn:E.
  - rewrite touchOwnershipEvent_run, He. cbn [recognizers].
    intros H. apply nth_error_replaceNth_same in H. subst d.
    apply setStatus_frame.
  - rewrite E. discriminate.
Qed.

Lemma sendOwnershipEvent_other n s q :
  fst n <> q ->
  nth_error (recognizers (sendOwnershipEvent n s)) q
  = nth_error (recognizers s) q.
Proof.
  intros H. unfold sendOwnershipEvent.
  destruct (nth_error (recognizers s) (fst n)) as [d0|]; [|reflexivity].
  destruct (touchOwnershipEvent (snd n) d0) as [d' log]. cbn [recognizers].
  now apply nth_error_replaceNth_other.
Qed.

Lemma sendOwnershipEvents_lost ns :
  forall s q,
    (forall e, In (q, e) ns -> gained e = false) ->
    waitingAt s q \/ (exists e, In (q, e) ns) ->
    waitingAt (sendOwnershipEvents ns s) q.
Proof.
  unfold sendOwnershipEvents.
  induction ns as [|[p e] ns IH]; intros s q Hlost H; cbn [fold_left].
  - destruct H as [H|[e []]]. exact H.
  - apply IH.
    + intros e' He'. apply Hlost. now right.
    + destruct (Nat.eq_dec p q) as [->|Hpq].
      * left. apply sendOwnershipEvent_lost. apply Hlost. now left.
      * destruct H as [H|[e' [He'|He']]].
        -- left. intros d. rewrite sendOwnershipEvent_other by exact Hpq.
           apply H.
        -- congruence.
        -- right. now exists e'.
Qed.

Lemma recordCalls_owners q calls :
  forall r,
    (forall c, In c calls -> exists id, c = AddTouchWatcher id) ->
    TouchRegistry.owners (recordCalls q calls r) = TouchRegistry.owners r.
Proof.
  unfold recordCalls.
  induction calls as [|c calls IH]; intros r H; cbn [fold_left];
    [reflexivity|].
  rewrite IH by (intros c' Hc'; apply H; now right).
  destruct (H c (or_introl eq_refl)) as [id ->]. cbn.
  unfold TouchRegistry.addTouchWatcher. now destruct (existsb _ _).
Qed.

Lemma touchOwnershipEvent_calls e d :
  forall c, In c (callsOf (snd (touchOwnershipEvent e d))) ->
            exists id, c = AddTouchWatcher id.
Proof.
  intros c. rewrite touchOwnershipEvent_run.
  destruct (gained e); cbn; [contradiction|].
  destruct (setStatus_frame WaitingForTouch d) as (_ & _ & ->).
  intros [<-|[]]. eauto.
Qed.

Lemma sendOwnershipEvents_owners ns :
  forall s,
    TouchRegistry.owners (registry (sendOwnershipEvents ns s))
    = TouchRegistry.owners (registry s).
Proof.
  unfold sendOwnershipEvents.
  induction ns as [|n ns IH]; intros s; cbn [fold_left]; [reflexivity|].
  rewrite IH. unfold sendOwnershipEvent.
  destruct (nth_error (recognizers s) (fst n)) as [d|]; [|reflexivity].
  pose proof (touchOwnershipEvent_calls (snd n) d) as H.
  destruct (touchOwnershipEvent (snd n) d) as [d' log]. cbn [registry].
  now apply recordCalls_owners.
Qed.

(** C1. Whatever events the system has processed, a touch id has at most
    one owner in the broker's ownership map. When the broker then grants an
    unowned touch id to a recognizer that requests it, that recognizer
    becomes the owner and is told so, and every other recognizer that was a
    candidate for the touch id is sent an ownership-lost notification and
    is [WaitingForTouch] once the request has been processed. *)
Theorem single_owner_per_touch :
  forall (recognizers0 : list UCDragGesturePrivate)
         (events : list SystemEvent),
    let s := run events (startOf recognizers0) in
    (forall id q1 q2,
        TouchRegistry.owns (registry s) q1 id ->
        TouchRegistry.owns (registry s) q2 id ->
        q1 = q2)
    /\ (forall id q,
           TouchRegistry.owner id (registry s) = None ->
           let s' := performCall q (RequestTouchOwnership id) s in
           let notifications :=
             snd (TouchRegistry.requestTouchOwnership id q (registry s)) in
           TouchRegistry.owner id (registry s') = Some q
           /\ In (q, mkOwnershipEvent id true) notifications
           /\ (forall q1 q2,
                  TouchRegistry.owns (registry s') q1 id ->
                  TouchRegistry.owns (registry s') q2 id ->
                  q1 = q2)
           /\ forall q',
               q' <> q ->
               In q' (TouchRegistry.candidatesFor id (registry s)) ->
               In (q', mkOwnershipEvent id false) notifications
               /\ forall d',
                   nth_error (recognizers s') q' = Some d' ->
                   status d' = WaitingForTouch).
Proof.
  intros recognizers0 events s.
  assert (Hinv : systemOwnersUnique s).
  { apply run_ownersUnique. constructor. }
  split.
  - intros id q1 q2. apply NoDup_map_fst_functional. exact Hinv.
  - intros id q Hfree s' notifications.
    assert (Hinv' : systemOwnersUnique s')
      by (apply performCall_ownersUnique; exact Hinv).
    subst s' notifications. unfold performCall in *.
    cbn [TouchRegistry.call] in *.
    unfold TouchRegistry.requestTouchOwnership in *. rewrite Hfree in *.
    cbn [snd].
    split; [|split; [|split]].
    + unfold TouchRegistry.owner. rewrite sendOwnershipEvents_owners.
      cbn [registry TouchRegistry.owners].
      apply forTouch_hd. exact Hfree.
    + now left.
    + intros q1 q2. apply NoDup_map_fst_functional. exact Hinv'.
    + intros q' Hq' Hcand.
      assert (Hin : In (q', mkOwnershipEvent id false)
                       (map (fun c => (c, mkOwnershipEvent id false))
                            (TouchRegistry.losersOf id q (registry s)))).
      { apply in_map_iff. exists q'. split; [reflexivity|].
        unfold TouchRegistry.losersOf. apply filter_In. split; [exact Hcand|].
        apply negb_true_iff. now apply Nat.eqb_neq. }
      split; [now right|].
      apply sendOwnershipEvents_lost.
      * intros e [He|He]; [congruence|].
        apply in_map_iff in He. destruct He as (c & Hc & _).
        inversion Hc. reflexivity.
      * right. eexists. right. exact Hin.
Qed.


Lemma single_owner_per_touch_witness :
  let s := run twoCandidates (startOf [exampleGesture; exampleGesture]) in
  let s' := performCall 0%nat (RequestTouchOwnership 1) s in
  (TouchRegistry.owner 1 (registry s) = None
   /\ 1%nat <> 0%nat
   /\ In 1%nat (TouchRegistry.candidatesFor 1 (registry s))
   /\ exists d, nth_error (recognizers s) 1 = Some d /\ status d = Undecided)
  /\ TouchRegistry.owner 1 (registry s') = Some 0%nat
  /\ In (1%nat, mkOwnershipEvent 1 false)
        (snd (TouchRegistry.requestTouchOwnership 1 0%nat (registry s)))
  /\ exists d',
      nth_error (recognizers s') 1 = Some d' /\ status d' = WaitingForTouch.
Proof.
  intros s s'.
  assert (Hfree : TouchRegistry.owner 1 (registry s) = None)
    by (vm_compute; reflexivity).
  assert (Hneq : 1%nat <> 0%nat) by discriminate.
  assert (Hcand : In 1%nat (TouchRegistry.candidatesFor 1 (registry s)))
    by (vm_compute; right; left; reflexivity).
  assert (Hbefore : exists d,
             nth_error (recognizers s) 1 = Some d /\ status d = Undecided)
    by (vm_compute; eexists; split; reflexivity).
  assert (Hthere : exists d', nth_error (recognizers s') 1 = Some d')
    by (vm_compute; eexists; reflexivity).
  split; [repeat split; assumption|].
  destruct (proj2 (single_owner_per_touch [exampleGesture; exampleGesture]
                                          twoCandidates) 1 0%nat Hfree)
    as (Howner & _ & _ & Hlosers).
  destruct (Hlosers 1%nat Hneq Hcand) as (Hsent & Hwaiting).
  split; [exact Howner|]. split; [exact Hsent|].
  destruct Hthere as [d' Hd']. exists d'. split; [exact Hd'|].
  exact (Hwaiting d' Hd').
Defined.


(** ** Symbolic runs *)

Lemma watchPressedTouchPoints_run touchPoints :
  forall d, watchPressedTouchPoints touchPoints d = (d, watchLog touchPoints).
Proof.
  unfold watchLog.
  induction touchPoints as [|tp rest IH]; intros d; cbn [watchPressedTouchPoints];
    [reflexivity|].
  unfold andThen. cbn [filter].
  destruct (isPressed (tp_state tp)); cbn; rewrite IH; reflexivity.
Qed.

Lemma signalsOf_watchLog touchPoints : signalsOf (watchLog touchPoints) = [].
Proof.
  unfold watchLog. induction touchPoints as [|tp rest IH]; cbn; [reflexivity|].
  destruct (isPressed (tp_state tp)); cbn; exact IH.
Qed.

Lemma candidacy_watchLog touchPoints :
  filter (fun c => negb (isWatchCall c)) (callsOf (watchLog touchPoints)) = [].
Proof.
  unfold watchLog. induction touchPoints as [|tp rest IH]; cbn; [reflexivity|].
  destruct (isPressed (tp_state tp)); cbn; exact IH.
Qed.

Lemma asserts_watchLog touchPoints : ~ In AssertFailed (watchLog touchPoints).
Proof.
  unfold watchLog. intros H. apply in_map_iff in H.
  destruct H as (tp & H & _). discriminate H.
Qed.

Lemma setStatus_run newStatus d :
  setStatus newStatus d
  = (withStatus newStatus d,
     map Emit (statusNotifications (status d) newStatus)).
Proof.
  unfold setStatus, withStatus, statusNotifications, andThen, modify, effect, skip.
  destruct newStatus; destruct (status d) eqn:E; cbn; reflexivity.
Qed.

(** Closes the leaves of a case analysis: equalities between computed
    values, and memberships in computed lists. *)
Ltac close_leaf :=
  cbn;
  first
    [ reflexivity
    | discriminate
    | intros; reflexivity
    | let H := fresh in intros H; discriminate H
    | let H := fresh in
      intros H; cbn in H;
      repeat (destruct H as [H|H]; try discriminate H);
      try contradiction; try reflexivity ].

Lemma setPublicPos_run point d :
  exists p log,
    setPublicPos point d = (set_publicPos p d, log)
    /\ callsOf log = []
    /\ statusSignalsOf log = []
    /\ p = (if Status_eqb (status d) Recognized
                && negb (recognitionIsDisabled d)
            then smoothToward (publicPos d) point else point)
    /\ (In AssertFailed log -> status d = Undecided).
Proof.
  unfold setPublicPos, andThen, Q_ASSERT, modify, effect, skip,
    statusIsWaitingOrRecognized, statusSignalsOf.
  destruct (status d) eqn:E; cbn; rewrite ?E; cbn;
    destruct (recognitionIsDisabled d); cbn;
    repeat match goal with
           | |- context [if ?c then _ else _] =>
               destruct c; cbn; rewrite ?E; cbn
           end;
    do 2 eexists; (split; [reflexivity|]); repeat split; close_leaf.
Qed.

Lemma setPublicScenePos_run point d :
  exists p v log,
    (setPublicScenePos point d = (d, log)
     \/ setPublicScenePos point d
        = (set_sceneDistance v (set_publicScenePos p d), log))
    /\ callsOf log = []
    /\ statusSignalsOf log = []
    /\ (In AssertFailed log -> status d = Undecided).
Proof.
  unfold setPublicScenePos, andThen, Q_ASSERT, modify, effect, skip,
    statusIsWaitingOrRecognized, statusSignalsOf, updateSceneDistance.
  destruct (status d) eqn:E; cbn; rewrite ?E; cbn;
    repeat match goal with
           | |- context [if ?c then _ else _] =>
               destruct c; cbn; rewrite ?E; cbn
           end;
    do 3 eexists;
    (split; [first [left; reflexivity | right; reflexivity]|]);
    repeat split; close_leaf.
  Unshelve. all: first [exact origin | exact 0%float].
Qed.

(** The two position setters only emit signals (or fail an assertion). *)
Lemma setPublicPos_emits point d :
  forall e, In e (snd (setPublicPos point d)) ->
            e = AssertFailed \/ exists s, e = Emit s.
Proof.
  unfold setPublicPos, andThen, Q_ASSERT, modify, effect, skip.
  repeat (cbn;
          match goal with
          | |- context [if ?c then _ else _] => destruct c
          end);
    cbn; intros e H;
    repeat (destruct H as [H|H]; [subst e; eauto|]); contradiction.
Qed.

Lemma setPublicScenePos_emits point d :
  forall e, In e (snd (setPublicScenePos point d)) ->
            e = AssertFailed \/ exists s, e = Emit s.
Proof.
  unfold setPublicScenePos, andThen, Q_ASSERT, modify, effect, skip,
    updateSceneDistance.
  repeat (cbn;
          match goal with
          | |- context [if ?c then _ else _] => destruct c
          end);
    cbn; intros e H;
    repeat (destruct H as [H|H]; [subst e; eauto|]); contradiction.
Qed.

Lemma updateSceneDirectionVector_run d :
  exists v, updateSceneDirectionVector d = (set_sceneDirectionVector v d, []).
Proof. unfold updateSceneDirectionVector, modify. eexists. reflexivity. Qed.

(** Reading a run backwards: what the parts of a sequence returned. *)
Lemma andThen_inv (a b : Action) d d2 l :
  (a ;; b) d = (d2, l) ->
  exists d1 l1 l2, a d = (d1, l1) /\ b d1 = (d2, l2) /\ l = l1 ++ l2.
Proof.
  unfold andThen. destruct (a d) as [d1 l1]. destruct (b d1) as [d2' l2] eqn:E.
  intros H. inversion H; subst. exists d1, l1, l2. auto.
Qed.

Lemma effect_inv e d d1 l : effect e d = (d1, l) -> d1 = d /\ l = [e].
Proof. unfold effect. intros H. inversion H. auto. Qed.

Lemma modify_inv f d d1 l : modify f d = (d1, l) -> d1 = f d /\ l = [].
Proof. unfold modify. intros H. inversion H. auto. Qed.

Lemma skip_inv d d1 l : skip d = (d1, l) -> d1 = d /\ l = [].
Proof. unfold skip. intros H. inversion H. auto. Qed.

Lemma Q_ASSERT_inv c d d1 l :
  Q_ASSERT c d = (d1, l) ->
  d1 = d /\ (l = [] \/ (l = [AssertFailed] /\ c d = false)).
Proof.
  unfold Q_ASSERT. destruct (c d); intros H; inversion H; auto.
Qed.

Lemma pair_inv {A B : Type} (a a' : A) (b b' : B) :
  (a, b) = (a', b') -> a' = a /\ b' = b.
Proof. intros H. inversion H. auto. Qed.

Lemma findNewTouchPoint_none touchPoints :
  forall allGood newTouchPoint,
    findNewTouchPoint touchPoints allGood newTouchPoint = (true, None) ->
    hasPressed touchPoints = false.
Proof.
  unfold hasPressed.
  induction touchPoints as [|tp rest IH]; intros allGood newTouchPoint;
    cbn [findNewTouchPoint existsb]; [reflexivity|].
  destruct allGood; [|discriminate].
  destruct (isPressed (tp_state tp)); cbn [orb].
  - destruct newTouchPoint as [p|]; intros H.
    + destruct rest; cbn in H; discriminate H.
    + exfalso. clear IH. revert H.
      assert (G : forall l b, findNewTouchPoint l b (Some tp) <> (true, None)).
      { induction l as [|x l IHl]; intros b; cbn.
        - discriminate.
        - destruct b; [|discriminate].
          destruct (isPressed (tp_state x)); [|apply IHl].
          destruct l; cbn; discriminate. }
      apply G.
  - apply IH.
Qed.

Ltac innermost c :=
  lazymatch c with
  | context [if _ then _ else _] => fail
  | context [match _ with _ => _ end] => fail
  | _ => idtac
  end.

Ltac inv_step :=
  match goal with
  | H : (_ ;; _) _ = (_, _) |- _ =>
      let d1 := fresh "d" in let l1 := fresh "l" in let l2 := fresh "l" in
      let H1 := fresh "R" in let H2 := fresh "R" in let H3 := fresh "L" in
      apply andThen_inv in H; destruct H as (d1 & l1 & l2 & H1 & H2 & H3)
  | H : effect _ _ = (_, _) |- _ =>
      apply effect_inv in H; destruct H as [? ?]
  | H : modify _ _ = (_, _) |- _ =>
      apply modify_inv in H; destruct H as [? ?]
  | H : skip _ = (_, _) |- _ =>
      apply skip_inv in H; destruct H as [? ?]
  | H : Q_ASSERT _ _ = (_, _) |- _ =>
      apply Q_ASSERT_inv in H; destruct H as [? [?|[? ?]]]
  | H : (_, _) = (_, _) |- _ =>
      apply pair_inv in H; destruct H as [? ?]
  | H : watchPressedTouchPoints _ _ = (_, _) |- _ =>
      rewrite watchPressedTouchPoints_run in H
  | H : setStatus _ _ = (_, _) |- _ => rewrite setStatus_run in H
  | H : updateSceneDirectionVector ?x = (_, _) |- _ =>
      let v := fresh "v" in let E := fresh "E" in
      destruct (updateSceneDirectionVector_run x) as (v & E);
      rewrite E in H; clear E
  | H : setPublicPos ?p ?x = (_, _) |- _ =>
      let p' := fresh "p" in let l := fresh "l" in let E := fresh "E" in
      let HL := fresh "HL" in
      pose proof (setPublicPos_emits p x) as HL;
      destruct (setPublicPos_run p x) as (p' & l & E & ? & ? & ? & ?);
      rewrite E in H, HL; cbn [snd] in HL; clear E
  | H : setPublicScenePos ?p ?x = (_, _) |- _ =>
      let p' := fresh "p" in let v := fresh "v" in
      let l := fresh "l" in let E := fresh "E" in
      let HL := fresh "HL" in
      pose proof (setPublicScenePos_emits p x) as HL;
      destruct (setPublicScenePos_run p x) as (p' & v & l & [E|E] & ? & ? & ?);
      rewrite E in H, HL; cbn [snd] in HL; clear E
  | H : requestOwnership _ = (_, _) |- _ => unfold requestOwnership in H
  | H : withdraw _ = (_, _) |- _ => unfold withdraw in H
  | H : watch _ = (_, _) |- _ => unfold watch in H
  | H : updateActiveTouches _ _ _ = (_, _) |- _ =>
      unfold updateActiveTouches in H
  | H : updateDampedScenePos _ _ = (_, _) |- _ =>
      unfold updateDampedScenePos in H
  | H : (if ?c then _ else _) _ = (_, _) |- _ => destruct c eqn:?
  | H : (if ?c then _ else _) = (_, _) |- _ => destruct c eqn:?
  | H : (match ?c with _ => _ end) _ = (_, _) |- _ => destruct c eqn:?
  | H : (match ?c with _ => _ end) = (_, _) |- _ => destruct c eqn:?
  | H : (fun _ => _) _ = (_, _) |- _ => cbv beta in H
  end.

Ltac inv_run := repeat (inv_step; subst; cbn [status q_enabled q_visible] in * ).


Ltac normalize_logs :=
  unfold statusSignalsOf, candidacyCallsOf in *;
  cbn in *;
  repeat (rewrite ?signalsOf_app, ?callsOf_app, ?filter_app,
            ?signalsOf_watchLog, ?candidacy_watchLog in *;
          cbn in *);
  repeat match goal with
         | H : callsOf ?l = [] |- _ => rewrite !H in *; clear H
         | H : filter isStatusSignal (signalsOf ?l) = [] |- _ =>
             rewrite !H in *; clear H
         end;
  cbn in *.

(** Membership of [AssertFailed] in a log made of known pieces. *)
Ltac split_membership H :=
  cbn in H; rewrite ?in_app_iff in H; cbn in H;
  repeat match type of H with
         | _ \/ _ => destruct H as [H|H]
         end.

Ltac no_assert :=
  let H := fresh in
  intros H; split_membership H;
  first
    [ discriminate H
    | contradiction
    | exfalso; eapply asserts_watchLog; eassumption
    | exfalso;
      match goal with
      | G : In AssertFailed ?l -> _ |- _ => specialize (G H); discriminate G
      end
    | left; assumption
    | right; split; [reflexivity | assumption]
    | repeat split; eauto ].

Ltac solve_field :=
  try first
    [ solve [reflexivity]
    | solve [discriminate]
    | solve [congruence]
    | solve [intros; repeat split; first [reflexivity | congruence]]
    | solve [intros; exfalso; congruence]
    | solve [intros; repeat split; try reflexivity; try congruence;
             do 2 eexists; reflexivity]
    | solve [intros; left; repeat split; try reflexivity; try assumption;
             try (do 2 eexists; reflexivity);
             unfold recognitionIsDisabled in *; cbn in *; assumption]
    | solve [intros; right; repeat split; try reflexivity;
             try (do 2 eexists; reflexivity)]
    | solve [intuition congruence]
    | solve [no_assert] ].

(** Facts the run left as hypotheses, put to use. *)
Ltac use_facts :=
  repeat match goal with
         | H : negb ?a || negb ?b = _ |- _ =>
             destruct a, b; try discriminate H; clear H
         | H : ?a = ?a -> _ |- _ => specialize (H eq_refl)
         | H : ?p = (if _ then _ else _) |- _ => cbn in H
         | H : negb _ = false |- _ => apply negb_false_iff in H
         | H : (fun _ => _) _ = false |- _ => cbn in H
         | H : match ?c with _ => _ end = false |- _ =>
             destruct c eqn:?; try discriminate H; clear H
         end;
  subst.

Ltac solve_summary :=
  use_facts;
  constructor; unfold timerFollowsStatus, usableWhileActive;
  normalize_logs;
  solve_field.

Lemma touchEvent_summary now event d :
  Summary (Touch now event) d
          (fst (touchEvent now event d)) (snd (touchEvent now event d)).
Proof.
  destruct d as [en vi ma st sd ti di dt dts md mt ct im tr tiv at_ sp ssp
                 dsp pdsp pp psp sdv].
  match goal with |- context [touchEvent ?n ?e ?x] =>
    destruct (touchEvent n e x) as [d' log] eqn:R end.
  cbn [fst snd].
  unfold touchEvent in R. cbn [q_enabled q_visible] in R.
  destruct (negb en || negb vi) eqn:Husable.
  { inv_run. destruct st; solve_summary. }
  apply andThen_inv in R. destruct R as (d1 & l1 & l2 & R & R2 & ->).
  cbv beta in R. cbn [status] in R.
  destruct st.
  - unfold touchEvent_absent in R.
    destruct (hasPressed event) eqn:Hp; cbn [negb] in R.
    2:{ inv_run. solve_summary. }
    match type of R with context [findNewTouchPoint ?e ?b ?o] =>
      destruct (findNewTouchPoint e b o) as [allGood newTouchPoint] eqn:HF end.
    destruct allGood;
      [match type of R with context [sanityCheckRecognitionProperties ?x] =>
         destruct (sanityCheckRecognitionProperties x) end|];
      cbn [negb] in R.
    all: inv_run.
    all: try (apply findNewTouchPoint_none in HF; congruence).
    all: solve_summary.
  - unfold touchEvent_undecided in R.
    inv_run.
    all: solve_summary.
  - unfold touchEvent_recognized in R.
    inv_run.
    all: solve_summary.
Qed.

Lemma unownedTouchEvent_summary now event d :
  Summary (Unowned now event) d
          (fst (unownedTouchEvent now event d))
          (snd (unownedTouchEvent now event d)).
Proof.
  destruct d as [en vi ma st sd ti di dt dts md mt ct im tr tiv at_ sp ssp
                 dsp pdsp pp psp sdv].
  match goal with |- context [unownedTouchEvent ?n ?e ?x] =>
    destruct (unownedTouchEvent n e x) as [d' log] eqn:R end.
  cbn [fst snd].
  unfold unownedTouchEvent in R.
  destruct st.
  all: try unfold unownedTouchEvent_undecided in R.
  all: inv_run.
  all: solve_summary.
Qed.

Lemma touchOwnershipEvent_summary event d :
  Summary (Ownership event) d
          (fst (touchOwnershipEvent event d))
          (snd (touchOwnershipEvent event d)).
Proof.
  destruct d as [en vi ma st sd ti di dt dts md mt ct im tr tiv at_ sp ssp
                 dsp pdsp pp psp sdv].
  match goal with |- context [touchOwnershipEvent ?e ?x] =>
    destruct (touchOwnershipEvent e x) as [d' log] eqn:R end.
  cbn [fst snd].
  unfold touchOwnershipEvent in R.
  destruct st.
  all: inv_run.
  all: solve_summary.
Qed.

Lemma rejectGesture_summary d :
  Summary TimerTimeout d (fst (rejectGesture d)) (snd (rejectGesture d)).
Proof.
  destruct d as [en vi ma st sd ti di dt dts md mt ct im tr tiv at_ sp ssp
                 dsp pdsp pp psp sdv].
  match goal with |- context [rejectGesture ?x] =>
    destruct (rejectGesture x) as [d' log] eqn:R end.
  cbn [fst snd].
  unfold rejectGesture in R.
  destruct st; cbn [status Status_eqb] in R.
  all: inv_run.
  all: solve_summary.
Qed.

Lemma setEnabled_summary b d :
  Summary (SetEnabled b) d
          (fst (deliver (SetEnabled b) d)) (snd (deliver (SetEnabled b) d)).
Proof.
  destruct d as [en vi ma st sd ti di dt dts md mt ct im tr tiv at_ sp ssp
                 dsp pdsp pp psp sdv].
  match goal with |- context [deliver ?e ?x] =>
    destruct (deliver e x) as [d' log] eqn:R end.
  cbn [fst snd].
  unfold deliver in R.
  apply andThen_inv in R. destruct R as (d1 & l1 & l2 & R1 & R & ->).
  apply modify_inv in R1. destruct R1 as [-> ->].
  unfold giveUpIfDisabledOrInvisible in R.
  cbn [set_q_enabled q_enabled q_visible status] in R.
  destruct st; cbn [Status_eqb negb] in R.
  all: inv_run.
  all: solve_summary.
Qed.

Lemma setVisible_summary b d :
  Summary (SetVisible b) d
          (fst (deliver (SetVisible b) d)) (snd (deliver (SetVisible b) d)).
Proof.
  destruct d as [en vi ma st sd ti di dt dts md mt ct im tr tiv at_ sp ssp
                 dsp pdsp pp psp sdv].
  match goal with |- context [deliver ?e ?x] =>
    destruct (deliver e x) as [d' log] eqn:R end.
  cbn [fst snd].
  unfold deliver in R.
  apply andThen_inv in R. destruct R as (d1 & l1 & l2 & R1 & R & ->).
  apply modify_inv in R1. destruct R1 as [-> ->].
  unfold giveUpIfDisabledOrInvisible in R.
  cbn [set_q_visible q_enabled q_visible status] in R.
  destruct st; cbn [Status_eqb negb] in R.
  all: inv_run.
  all: solve_summary.
Qed.

(** What any delivery does to the state machine of a recognizer. *)
Lemma deliver_summary (e : Delivery) (d : UCDragGesturePrivate) :
  Summary e d (fst (deliver e d)) (snd (deliver e d)).
Proof.
  destruct e as [now event|now event|event| |b|b].
  - apply touchEvent_summary.
  - apply unownedTouchEvent_summary.
  - apply touchOwnershipEvent_summary.
  - apply rejectGesture_summary.
  - apply setEnabled_summary.
  - apply setVisible_summary.
Qed.


(** ** The state machine, delivery by delivery *)

Lemma in_candidacyCallsOf (c : RegistryCall) (log : list Effect) :
  isWatchCall c = false ->
  (In c (callsOf log) <-> In c (candidacyCallsOf log)).
Proof.
  intros H. unfold candidacyCallsOf. rewrite filter_In, H. cbn. tauto.
Qed.

Lemma in_statusSignalsOf (s : Signal) (log : list Effect) :
  isStatusSignal s = true ->
  (In s (signalsOf log) <-> In s (statusSignalsOf log)).
Proof.
  intros H. unfold statusSignalsOf. rewrite filter_In, H. tauto.
Qed.

(** X1. What a recognizer asks of the broker about candidacy and ownership
    follows its change of status, for every delivery in every state: it
    asks for candidacy exactly when it goes from [WaitingForTouch] to
    [Undecided], for ownership exactly when it becomes [Recognized], and it
    withdraws exactly when an event other than an ownership event takes it
    from [Undecided] to [WaitingForTouch]; always for its own touch id. *)
Theorem candidacy_calls_follow_status :
  forall (e : Delivery) (d : UCDragGesturePrivate),
    let d' := fst (deliver e d) in
    let calls := callsOf (snd (deliver e d)) in
    (forall id,
        In (AddCandidateOwnerForTouch id) calls
        <-> status d = WaitingForTouch /\ status d' = Undecided
            /\ id = touchId d')
    /\ (forall id,
           In (RequestTouchOwnership id) calls
           <-> status d <> Recognized /\ status d' = Recognized
               /\ id = touchId d')
    /\ (forall id,
           In (RemoveCandidateOwnerForTouch id) calls
           <-> fromOutside e = true /\ status d = Undecided
               /\ status d' = WaitingForTouch /\ id = touchId d).
Proof.
  intros e d d' calls. subst d' calls.
  destruct (deliver_summary e d) as [_ Hcalls _ _ Horigin _ _ _ _ _ _].
  assert (Hid : status d <> WaitingForTouch ->
                touchId (fst (deliver e d)) = touchId d)
    by (intros H; apply Horigin; exact H).
  clear Horigin.
  split; [|split]; intros id; split.
  - intros H. apply in_candidacyCallsOf in H; [|reflexivity].
    rewrite Hcalls in H. unfold protocolCalls in H.
    destruct (status d), (status (fst (deliver e d))),
      (fromOutside e); cbn in H;
      try contradiction; destruct H as [H|[]]; inversion H; auto.
  - intros (H1 & H2 & ->). apply in_candidacyCallsOf; [reflexivity|].
    rewrite Hcalls, H1, H2. now left.
  - intros H. apply in_candidacyCallsOf in H; [|reflexivity].
    rewrite Hcalls in H. unfold protocolCalls in H.
    destruct (status d) eqn:Es, (status (fst (deliver e d))),
      (fromOutside e); cbn in H;
      try contradiction; destruct H as [H|[]]; inversion H;
      repeat split; try discriminate; try reflexivity;
      symmetry; apply Hid; discriminate.
  - intros (H1 & H2 & ->). apply in_candidacyCallsOf; [reflexivity|].
    rewrite Hcalls, H2. unfold protocolCalls.
    destruct (status d) eqn:Es; [now left | | congruence].
    left. f_equal. symmetry. apply Hid. discriminate.
  - intros H. apply in_candidacyCallsOf in H; [|reflexivity].
    rewrite Hcalls in H. unfold protocolCalls in H.
    destruct (status d), (status (fst (deliver e d))),
      (fromOutside e); cbn in H;
      try contradiction; destruct H as [H|[]]; inversion H; auto.
  - intros (H1 & H2 & H3 & ->). apply in_candidacyCallsOf; [reflexivity|].
    rewrite Hcalls, H1, H2, H3. now left.
Qed.

(** X2. The notifications about the status say what happened, for every
    delivery in every state: [statusChanged] is emitted exactly when the
    status changes, [draggingChanged] exactly when [dragging()] changes,
    each with the new value; [pressedChanged] is emitted exactly when
    [pressed()] changes, with the new value, except that a press recognized
    at once (from [WaitingForTouch] to [Recognized]) changes [pressed()]
    without the notification. *)
Theorem status_notifications_follow_changes :
  forall (e : Delivery) (d : UCDragGesturePrivate),
    let d' := fst (deliver e d) in
    let signals := signalsOf (snd (deliver e d)) in
    (forall s,
        In (statusChanged s) signals <-> status d' <> status d /\ s = status d')
    /\ (forall b,
           In (draggingChanged b) signals
           <-> dragging d' <> dragging d /\ b = dragging d')
    /\ (forall b,
           In (pressedChanged b) signals
           <-> pressed d' <> pressed d /\ b = pressed d'
               /\ (status d = WaitingForTouch -> status d' <> Recognized)).
Proof.
  intros e d d' signals. subst d' signals.
  destruct (deliver_summary e d) as [Hsig _ _ _ _ _ _ _ Hnever _ _].
  unfold dragging, pressed.
  split; [|split]; intros x; split.
  - intros H. apply in_statusSignalsOf in H; [|reflexivity].
    rewrite Hsig in H. unfold statusNotifications in H.
    destruct (status d), (status (fst (deliver e d))); cbn in H;
      repeat (destruct H as [H|H]; try discriminate H);
      try contradiction; inversion H; split; (discriminate || reflexivity).
  - intros (H1 & ->). apply in_statusSignalsOf; [reflexivity|].
    rewrite Hsig. unfold statusNotifications.
    destruct (status d), (status (fst (deliver e d))); cbn;
      try congruence; now left.
  - intros H. apply in_statusSignalsOf in H; [|reflexivity].
    rewrite Hsig in H. unfold statusNotifications in H.
    destruct (status d), (status (fst (deliver e d))); cbn in H;
      repeat (destruct H as [H|H]; try discriminate H);
      try contradiction; inversion H; cbn;
      split; (discriminate || reflexivity).
  - intros (H1 & ->). apply in_statusSignalsOf; [reflexivity|].
    rewrite Hsig. unfold statusNotifications.
    destruct (status d) eqn:Es, (status (fst (deliver e d))) eqn:Es';
      cbn in *; try congruence; auto.
    exfalso. now apply Hnever.
  - intros H. apply in_statusSignalsOf in H; [|reflexivity].
    rewrite Hsig in H. unfold statusNotifications in H.
    destruct (status d) eqn:Es, (status (fst (deliver e d))) eqn:Es';
      cbn in H;
      repeat (destruct H as [H|H]; try discriminate H);
      try contradiction; inversion H; cbn;
      try (exfalso; apply Hnever; first [reflexivity | assumption]);
      repeat split; try discriminate; try reflexivity;
      try (intros; discriminate); try congruence.
  - intros (H1 & -> & H3). apply in_statusSignalsOf; [reflexivity|].
    rewrite Hsig. unfold statusNotifications.
    destruct (status d) eqn:Es, (status (fst (deliver e d))) eqn:Es';
      cbn in *; try congruence; auto.
    exfalso. now apply H3.
Qed.


(** ** Invariants of a recognizer *)

Lemma deliverAll_keeps (I : UCDragGesturePrivate -> Prop) :
  (forall e d, I d -> I (fst (deliver e d))) ->
  forall es d, I d -> I (fst (deliverAll es d)).
Proof.
  intros Hstep es. induction es as [|e es IH]; intros d Hd; [exact Hd|].
  cbn [deliverAll]. rewrite andThen_run. cbn [fst].
  apply IH. apply Hstep. exact Hd.
Qed.

(** X3. The recognition timer runs exactly while the gesture is undecided: if
    that holds of a recognizer, it holds after any sequence of
    deliveries. *)
Theorem recognition_timer_runs_while_undecided :
  forall (es : list Delivery) (d0 : UCDragGesturePrivate),
    recognitionTimerRunning d0 = Status_eqb (status d0) Undecided ->
    let d := fst (deliverAll es d0) in
    recognitionTimerRunning d = Status_eqb (status d) Undecided.
Proof.
  intros es d0 H0 d. subst d.
  apply (deliverAll_keeps timerFollowsStatus); [|exact H0].
  intros e d. apply (deliver_summary e d).
Qed.

Lemma recognition_timer_runs_while_undecided_witness :
  recognitionTimerRunning exampleGesture
  = Status_eqb (status exampleGesture) Undecided
  /\ recognitionTimerRunning
       (fst (deliverAll [Touch 0 [touchAt 1 TouchPointPressed 0 0];
                         TimerTimeout] exampleGesture))
     = Status_eqb
         (status
            (fst (deliverAll [Touch 0 [touchAt 1 TouchPointPressed 0 0];
                              TimerTimeout] exampleGesture)))
         Undecided.
Proof.
  assert (H0 : recognitionTimerRunning exampleGesture
               = Status_eqb (status exampleGesture) Undecided)
    by (vm_compute; reflexivity).
  split; [exact H0|].
  exact (recognition_timer_runs_while_undecided
           [Touch 0 [touchAt 1 TouchPointPressed 0 0]; TimerTimeout]
           exampleGesture H0).
Defined.

(** X4. A recognizer that is not [WaitingForTouch] belongs to an enabled and
    visible item: if that holds of a recognizer, it holds after any
    sequence of deliveries (disabling or hiding the item resets it). *)
Theorem active_recognizer_is_enabled_and_visible :
  forall (es : list Delivery) (d0 : UCDragGesturePrivate),
    (status d0 <> WaitingForTouch ->
     q_enabled d0 = true /\ q_visible d0 = true) ->
    let d := fst (deliverAll es d0) in
    status d <> WaitingForTouch ->
    q_enabled d = true /\ q_visible d = true.
Proof.
  intros es d0 H0 d. subst d.
  apply (deliverAll_keeps usableWhileActive); [|exact H0].
  intros e d. apply (deliver_summary e d).
Qed.

Lemma active_recognizer_is_enabled_and_visible_witness :
  (status exampleGesture <> WaitingForTouch ->
   q_enabled exampleGesture = true /\ q_visible exampleGesture = true)
  /\ status (fst (deliverAll [Touch 0 [touchAt 1 TouchPointPressed 0 0]]
                             exampleGesture)) <> WaitingForTouch
  /\ q_enabled (fst (deliverAll [Touch 0 [touchAt 1 TouchPointPressed 0 0]]
                                exampleGesture)) = true
  /\ q_visible (fst (deliverAll [Touch 0 [touchAt 1 TouchPointPressed 0 0]]
                                exampleGesture)) = true.
Proof.
  assert (H0 : status exampleGesture <> WaitingForTouch ->
               q_enabled exampleGesture = true
               /\ q_visible exampleGesture = true)
    by (intros _; split; vm_compute; reflexivity).
  assert (H1 : status (fst (deliverAll
                              [Touch 0 [touchAt 1 TouchPointPressed 0 0]]
                              exampleGesture)) <> WaitingForTouch)
    by (vm_compute; discriminate).
  split; [exact H0|]. split; [exact H1|].
  exact (active_recognizer_is_enabled_and_visible
           [Touch 0 [touchAt 1 TouchPointPressed 0 0]] exampleGesture H0 H1).
Defined.

Lemma publicPosAtStart_step e d :
  publicPosAtStart d -> publicPosAtStart (fst (deliver e d)).
Proof.
  unfold publicPosAtStart. intros H Hu.
  destruct (deliver_summary e d)
    as [_ _ _ _ Horigin Hpublic Hentered _ _ _ _].
  destruct (status d) eqn:Es.
  - apply Hentered; [exact Hu | discriminate].
  - assert (Hn : status (fst (deliver e d)) <> Recognized) by congruence.
    destruct (Hpublic eq_refl Hn) as (-> & _).
    destruct Horigin as (_ & -> & _); [discriminate|].
    now apply H.
  - apply Hentered; [exact Hu | discriminate].
Qed.

(** X5. While a gesture is undecided the public touch position is the position
    of the press, so that [distance()] is the difference of a coordinate
    with itself: if that holds of a recognizer, it holds after any sequence
    of deliveries. *)
Theorem public_position_waits_for_recognition :
  forall (es : list Delivery) (d0 : UCDragGesturePrivate),
    (status d0 = Undecided -> publicPos d0 = startPos d0) ->
    let d := fst (deliverAll es d0) in
    status d = Undecided ->
    touchPos d = startPos d
    /\ distance d
       = if DirectionClass.isHorizontal (direction d)
         then (px (startPos d) - px (startPos d))%float
         else (py (startPos d) - py (startPos d))%float.
Proof.
  intros es d0 H0 d Hu. subst d.
  assert (H : publicPosAtStart (fst (deliverAll es d0))).
  { apply (deliverAll_keeps publicPosAtStart); [|exact H0].
    intros e d. apply publicPosAtStart_step. }
  specialize (H Hu). unfold touchPos, distance. rewrite H. split; reflexivity.
Qed.

Lemma public_position_waits_for_recognition_witness :
  (status exampleGesture = Undecided ->
   publicPos exampleGesture = startPos exampleGesture)
  /\ status (fst (deliverAll
                    [Touch 0 [touchAt 1 TouchPointPressed 5 5];
                     Unowned 30 [touchAt 1 TouchPointMoved 40 7]]
                    exampleGesture)) = Undecided
  /\ touchPos (fst (deliverAll
                      [Touch 0 [touchAt 1 TouchPointPressed 5 5];
                       Unowned 30 [touchAt 1 TouchPointMoved 40 7]]
                      exampleGesture))
     = startPos (fst (deliverAll
                        [Touch 0 [touchAt 1 TouchPointPressed 5 5];
                         Unowned 30 [touchAt 1 TouchPointMoved 40 7]]
                        exampleGesture)).
Proof.
  assert (H0 : status exampleGesture = Undecided ->
               publicPos exampleGesture = startPos exampleGesture)
    by (intros _; vm_compute; reflexivity).
  assert (H1 : status (fst (deliverAll
                    [Touch 0 [touchAt 1 TouchPointPressed 5 5];
                     Unowned 30 [touchAt 1 TouchPointMoved 40 7]]
                    exampleGesture)) = Undecided)
    by (vm_compute; reflexivity).
  split; [exact H0|]. split; [exact H1|].
  exact (proj1 (public_position_waits_for_recognition
                  [Touch 0 [touchAt 1 TouchPointPressed 5 5];
                   Unowned 30 [touchAt 1 TouchPointMoved 40 7]]
                  exampleGesture H0 H1)).
Defined.

(** X6. From the press to the end of a gesture, no delivery changes the touch
    id the recognizer follows, the start position (local and scene) or the
    direction vector captured at the press; and it never changes the
    configuration. *)
Theorem gesture_origin_is_fixed :
  forall (e : Delivery) (d : UCDragGesturePrivate),
    status d <> WaitingForTouch ->
    let d' := fst (deliver e d) in
    touchId d' = touchId d
    /\ startPos d' = startPos d
    /\ startScenePos d' = startScenePos d
    /\ sceneDirectionVector d' = sceneDirectionVector d
    /\ direction d' = direction d
    /\ distanceThreshold d' = distanceThreshold d
    /\ maxDistance d' = maxDistance d
    /\ maxTime d' = maxTime d
    /\ compositionTime d' = compositionTime d
    /\ immediateRecognition d' = immediateRecognition d.
Proof.
  intros e d Hs d'. subst d'.
  destruct (deliver_summary e d) as [_ _ _ _ Horigin _ _ _ _ Hconfig _].
  destruct (Horigin Hs) as (A & B & C & D).
  destruct Hconfig as (E & F & _ & G & H & _ & I & J).
  repeat split; assumption.
Qed.

Lemma gesture_origin_is_fixed_witness :
  status pressedGesture <> WaitingForTouch
  /\ touchId (fst (deliver (Unowned 30 [touchAt 1 TouchPointMoved 15 0])
                           pressedGesture)) = touchId pressedGesture
  /\ startPos (fst (deliver (Unowned 30 [touchAt 1 TouchPointMoved 15 0])
                            pressedGesture)) = startPos pressedGesture.
Proof.
  assert (H : status pressedGesture <> WaitingForTouch)
    by (vm_compute; discriminate).
  split; [exact H|].
  destruct (gesture_origin_is_fixed
              (Unowned 30 [touchAt 1 TouchPointMoved 15 0])
              pressedGesture H) as (A & B & _).
  split; [exact A | exact B].
Defined.

(** X7. How a status is entered: [Undecided] only from [WaitingForTouch] and
    only by a touch event; [Recognized] only from [WaitingForTouch] by a
    touch event when recognition is disabled, or from [Undecided] by an
    unowned touch event. In particular a recognized gesture never becomes
    undecided again. *)
Theorem status_is_entered_by_touch :
  forall (e : Delivery) (d : UCDragGesturePrivate),
    let d' := fst (deliver e d) in
    (status d' = Undecided ->
     status d = Undecided
     \/ (status d = WaitingForTouch /\ exists now event, e = Touch now event))
    /\ (status d' = Recognized ->
        status d = Recognized
        \/ (status d = WaitingForTouch
            /\ recognitionIsDisabled d = true
            /\ exists now event, e = Touch now event)
        \/ (status d = Undecided
            /\ exists now event, e = Unowned now event)).
Proof.
  intros e d d'. subst d'.
  destruct (deliver_summary e d) as [_ _ _ _ _ _ Hu Hr _ _ _].
  split; intros H.
  - destruct (status d) eqn:Es; [right | now left | right];
      (destruct Hu as (_ & A & B); [exact H | discriminate |]);
      split; trivial; discriminate.
  - destruct (status d) eqn:Es; [right | right | now left].
    + destruct Hr as [A|A]; [exact H | discriminate | left; exact A |].
      destruct A as [A _]. discriminate A.
    + destruct Hr as [A|A]; [exact H | discriminate | | right; exact A].
      destruct A as [A _]. discriminate A.
Qed.

(** X8. An assertion of a handler fails only when the delivery breaks what the
    handler expects of it: an unowned event that carries a pressed point or
    reaches an undecided recognizer whose item is disabled or hidden, or a
    touch event that carries the touch of an undecided recognizer. The
    assertions on the public position and on the pressed point found never
    fail. *)
Theorem assertions_fail_only_on_broken_contract :
  forall (e : Delivery) (d : UCDragGesturePrivate),
    In AssertFailed (snd (deliver e d)) ->
    match e with
    | Touch _ event =>
        status d = Undecided
        /\ exists tp, fetchTargetTouchPoint event (touchId d) = Some tp
    | Unowned _ event =>
        hasPressed event = true
        \/ (status d = Undecided /\ q_enabled d && q_visible d = false)
    | _ => False
    end.
Proof.
  intros e d H. apply (deliver_summary e d). exact H.
Qed.

Lemma assertions_fail_only_on_broken_contract_witness :
  In AssertFailed
     (snd (deliver (Unowned 30 [touchAt 2 TouchPointPressed 15 0])
                   pressedGesture))
  /\ (hasPressed [touchAt 2 TouchPointPressed 15 0] = true
      \/ (status pressedGesture = Undecided
          /\ q_enabled pressedGesture && q_visible pressedGesture = false)).
Proof.
  assert (H : In AssertFailed
     (snd (deliver (Unowned 30 [touchAt 2 TouchPointPressed 15 0])
                   pressedGesture)))
    by (vm_compute; left; reflexivity).
  split; [exact H|].
  exact (assertions_fail_only_on_broken_contract
           (Unowned 30 [touchAt 2 TouchPointPressed 15 0]) pressedGesture H).
Defined.


(** ** The handlers, case by case *)



(** X9. A touch that ends while the gesture is undecided (it is released, or it
    is missing from the event, which is logged as critical) only makes the
    recognizer withdraw its candidacy and return to [WaitingForTouch]:
    unlike a rejection, it does not ask to watch the touch. *)
Theorem ended_touch_withdraws_without_watching :
  forall (now : Z) (event : QTouchEvent) (d : UCDragGesturePrivate),
    status d = Undecided ->
    (fetchTargetTouchPoint event (touchId d) = None
     \/ exists tp, fetchTargetTouchPoint event (touchId d) = Some tp
                   /\ isReleased (tp_state tp) = true) ->
    let r := unownedTouchEvent now event d in
    status (fst r) = WaitingForTouch
    /\ callsOf (snd r) = [RemoveCandidateOwnerForTouch (touchId d)]
    /\ signalsOf (snd r)
       = [statusChanged WaitingForTouch; pressedChanged false]
    /\ (In qCritical (snd r)
        <-> fetchTargetTouchPoint event (touchId d) = None).
Proof.
  intros now event d Hs Hend r. subst r.
  destruct d as [en vi ma st sd ti di dt dts md mt ct im tr tiv at_ sp ssp
                 dsp pdsp pp psp sdv].
  cbn [status touchId] in *. subst st.
  match goal with |- context [unownedTouchEvent ?n ?e ?x] =>
    destruct (unownedTouchEvent n e x) as [d' log] eqn:R end.
  cbn [fst snd].
  unfold unownedTouchEvent in R.
  apply andThen_inv in R. destruct R as (d1 & l1 & l2 & R1 & R & ->).
  apply andThen_inv in R. destruct R as (d2 & l3 & l4 & R & R2 & ->).
  cbv beta in R. apply Q_ASSERT_inv in R1. destruct R1 as [-> Hl1].
  cbn [status] in R.
  apply andThen_inv in R. destruct R as (d3 & l5 & l6 & R3 & R & ->).
  apply Q_ASSERT_inv in R3. destruct R3 as [-> Hl5].
  unfold unownedTouchEvent_undecided in R. cbn [touchId] in R.
  destruct Hend as [Hf|(tp & Hf & Hrel)]; rewrite Hf in *; try rewrite Hrel in R.
  all: inv_run.
  all: destruct Hl1 as [->|[-> _]]; destruct Hl5 as [->|[-> _]].
  all: cbn; repeat split; try reflexivity; try discriminate; auto.
  all: try (intros H; repeat (destruct H as [H|H]; try discriminate H);
            contradiction).
Qed.

Lemma ended_touch_withdraws_without_watching_witness :
  status pressedGesture = Undecided
  /\ (exists tp,
         fetchTargetTouchPoint [touchAt 1 TouchPointReleased 3 0]
                               (touchId pressedGesture) = Some tp
         /\ isReleased (tp_state tp) = true)
  /\ status (fst (unownedTouchEvent 200 [touchAt 1 TouchPointReleased 3 0]
                                    pressedGesture)) = WaitingForTouch
  /\ callsOf (snd (unownedTouchEvent 200 [touchAt 1 TouchPointReleased 3 0]
                                     pressedGesture))
     = [RemoveCandidateOwnerForTouch (touchId pressedGesture)].
Proof.
  assert (H0 : status pressedGesture = Undecided) by (vm_compute; reflexivity).
  assert (H1 : exists tp,
         fetchTargetTouchPoint [touchAt 1 TouchPointReleased 3 0]
                               (touchId pressedGesture) = Some tp
         /\ isReleased (tp_state tp) = true)
    by (eexists; split; vm_compute; reflexivity).
  split; [exact H0|]. split; [exact H1|].
  destruct (ended_touch_withdraws_without_watching
              200 [touchAt 1 TouchPointReleased 3 0] pressedGesture
              H0 (or_intror H1)) as (A & B & _).
  split; [exact A | exact B].
Defined.

(** X10. A recognized gesture follows its touch: a touch event leaves it
    [Recognized] unless the touch is released or missing (missing is logged
    as critical), where it returns to [WaitingForTouch]; the public position
    moves to the sample, by the smoothing step when recognition is not
    disabled; and the broker is asked nothing, not even at the end. *)
Theorem recognized_gesture_follows_touch :
  forall (now : Z) (event : QTouchEvent) (d : UCDragGesturePrivate),
    status d = Recognized ->
    q_enabled d = true -> q_visible d = true ->
    let r := touchEvent now event d in
    callsOf (snd r) = []
    /\ match fetchTargetTouchPoint event (touchId d) with
       | None =>
           status (fst r) = WaitingForTouch
           /\ publicPos (fst r) = publicPos d
           /\ In qCritical (snd r)
       | Some tp =>
           status (fst r)
           = (if isReleased (tp_state tp) then WaitingForTouch else Recognized)
           /\ publicPos (fst r)
              = (if recognitionIsDisabled d then tp_pos tp
                 else smoothToward (publicPos d) (tp_pos tp))
       end.
Proof.
  intros now event d Hs He Hv r. subst r.
  destruct d as [en vi ma st sd ti di dt dts md mt ct im tr tiv at_ sp ssp
                 dsp pdsp pp psp sdv].
  cbn [status touchId q_enabled q_visible publicPos] in *. subst st en vi.
  match goal with |- context [touchEvent ?n ?e ?x] =>
    destruct (touchEvent n e x) as [d' log] eqn:R end.
  cbn [fst snd].
  unfold touchEvent in R. cbn [q_enabled q_visible negb orb] in R.
  apply andThen_inv in R. destruct R as (d1 & l1 & l2 & R & R2 & ->).
  cbv beta in R. cbn [status] in R.
  unfold touchEvent_recognized in R. cbn [touchId] in R.
  destruct (fetchTargetTouchPoint event ti) as [tp|].
  all: inv_run.
  all: use_facts; normalize_logs.
  all: repeat match goal with
              | |- context [recognitionIsDisabled ?x] =>
                  destruct (recognitionIsDisabled x)
              end.
  all: cbn; repeat split; try reflexivity; auto.
Qed.

Lemma recognized_gesture_follows_touch_witness :
  status recognizedGesture = Recognized
  /\ q_enabled recognizedGesture = true
  /\ q_visible recognizedGesture = true
  /\ callsOf (snd (touchEvent 300 [touchAt 1 TouchPointReleased 30 0]
                              recognizedGesture)) = []
  /\ match fetchTargetTouchPoint [touchAt 1 TouchPointReleased 30 0]
                                 (touchId recognizedGesture) with
     | None =>
         status (fst (touchEvent 300 [touchAt 1 TouchPointReleased 30 0]
                                 recognizedGesture)) = WaitingForTouch
         /\ publicPos (fst (touchEvent 300 [touchAt 1 TouchPointReleased 30 0]
                                       recognizedGesture))
            = publicPos recognizedGesture
         /\ In qCritical (snd (touchEvent 300
                                  [touchAt 1 TouchPointReleased 30 0]
                                  recognizedGesture))
     | Some tp =>
         status (fst (touchEvent 300 [touchAt 1 TouchPointReleased 30 0]
                                 recognizedGesture))
         = (if isReleased (tp_state tp) then WaitingForTouch else Recognized)
         /\ publicPos (fst (touchEvent 300 [touchAt 1 TouchPointReleased 30 0]
                                       recognizedGesture))
            = (if recognitionIsDisabled recognizedGesture then tp_pos tp
               else smoothToward (publicPos recognizedGesture) (tp_pos tp))
     end.
Proof.
  assert (H0 : status recognizedGesture = Recognized)
    by (vm_compute; reflexivity).
  assert (H1 : q_enabled recognizedGesture = true)
    by (vm_compute; reflexivity).
  assert (H2 : q_visible recognizedGesture = true)
    by (vm_compute; reflexivity).
  split; [exact H0|]. split; [exact H1|]. split; [exact H2|].
  exact (recognized_gesture_follows_touch
           300 [touchAt 1 TouchPointReleased 30 0] recognizedGesture
           H0 H1 H2).
Defined.


(** X11. Disabling or hiding the item ends whatever gesture is under way: the
    recognizer is [WaitingForTouch] afterwards with its timer stopped, and
    if it was undecided it has withdrawn its candidacy and asked to watch
    its touch (a recognized gesture ends without a word to the broker). *)
Theorem disabling_or_hiding_resets :
  forall (d : UCDragGesturePrivate) (e : Delivery),
    e = SetEnabled false \/ e = SetVisible false ->
    let r := deliver e d in
    status (fst r) = WaitingForTouch
    /\ callsOf (snd r)
       = (if Status_eqb (status d) Undecided
          then [RemoveCandidateOwnerForTouch (touchId d);
                AddTouchWatcher (touchId d)]
          else [])
    /\ signalsOf (snd r) = statusNotifications (status d) WaitingForTouch
    /\ (status d = Undecided -> recognitionTimerRunning (fst r) = false).
Proof.
  intros d e He r. subst r.
  destruct d as [en vi ma st sd ti di dt dts md mt ct im tr tiv at_ sp ssp
                 dsp pdsp pp psp sdv].
  cbn [status touchId].
  match goal with |- context [deliver ?e ?x] =>
    destruct (deliver e x) as [d' log] eqn:R end.
  cbn [fst snd].
  destruct He as [-> | ->]; unfold deliver in R;
    apply andThen_inv in R; destruct R as (d1 & l1 & l2 & R1 & R & ->);
    apply modify_inv in R1; destruct R1 as [-> ->];
    unfold giveUpIfDisabledOrInvisible in R;
    cbn [set_q_enabled set_q_visible q_enabled q_visible status negb orb] in R;
    rewrite ?orb_true_r in R;
    destruct st; cbn [Status_eqb negb] in R.
  all: inv_run.
  all: cbn; repeat split; try reflexivity; try discriminate.
Qed.

Lemma disabling_or_hiding_resets_witness :
  (SetEnabled false = SetEnabled false \/ SetEnabled false = SetVisible false)
  /\ status (fst (deliver (SetEnabled false) pressedGesture)) = WaitingForTouch
  /\ callsOf (snd (deliver (SetEnabled false) pressedGesture))
     = (if Status_eqb (status pressedGesture) Undecided
        then [RemoveCandidateOwnerForTouch (touchId pressedGesture);
              AddTouchWatcher (touchId pressedGesture)]
        else []).
Proof.
  assert (H : SetEnabled false = SetEnabled false
              \/ SetEnabled false = SetVisible false)
    by (left; reflexivity).
  split; [exact H|].
  destruct (disabling_or_hiding_resets pressedGesture (SetEnabled false) H)
    as (A & B & _).
  split; [exact A | exact B].
Defined.

(** ** The press *)

Lemma findNewTouchPoint_found touchPoints tp :
  forall allGood newTouchPoint,
    findNewTouchPoint touchPoints allGood newTouchPoint = (true, Some tp) ->
    (newTouchPoint = None
     /\ filter (fun p => isPressed (tp_state p)) touchPoints = [tp])
    \/ (newTouchPoint = Some tp
        /\ filter (fun p => isPressed (tp_state p)) touchPoints = []).
Proof.
  induction touchPoints as [|p rest IH]; intros allGood newTouchPoint;
    cbn [findNewTouchPoint filter].
  - intros H. inversion H. right. split; reflexivity.
  - destruct allGood; [|discriminate].
    destruct (isPressed (tp_state p)).
    + destruct newTouchPoint as [q|].
      * rewrite findNewTouchPoint_stopped. discriminate.
      * intros H. apply IH in H. destruct H as [[H _]|[H1 H2]];
          [discriminate H|].
        inversion H1; subst. left. rewrite H2. split; reflexivity.
    + apply IH.
Qed.

(** X12. A touch event that reaches an enabled and visible recognizer that is
    [WaitingForTouch] starts a gesture exactly when it carries one pressed
    point, outside the composition window, and the recognition properties
    are consistent. The gesture then starts at that point: its id, its
    position and its scene position are recorded, the damped position and
    the public position are reset to it, and the recognizer is [Recognized]
    with the event accepted when recognition is disabled, [Undecided] with
    the event ignored otherwise. *)
Theorem press_starts_gesture :
  forall (now : Z) (event : QTouchEvent) (d : UCDragGesturePrivate),
    status d = WaitingForTouch ->
    q_enabled d = true -> q_visible d = true ->
    let r := touchEvent now event d in
    (status (fst r) <> WaitingForTouch
     <-> pressedCount event = 1%nat
         /\ isWithinTouchCompositionWindow now d = false
         /\ sanityCheckRecognitionProperties d = true)
    /\ (status (fst r) <> WaitingForTouch ->
        exists tp,
          filter (fun p => isPressed (tp_state p)) event = [tp]
          /\ touchId (fst r) = tp_id tp
          /\ startPos (fst r) = tp_pos tp
          /\ startScenePos (fst r) = tp_scenePos tp
          /\ publicPos (fst r) = tp_pos tp
          /\ DampedPointF.x (dampedScenePos (fst r)) = px (tp_scenePos tp)
          /\ DampedPointF.y (dampedScenePos (fst r)) = py (tp_scenePos tp)
          /\ status (fst r)
             = (if recognitionIsDisabled d then Recognized else Undecided)
          /\ (In EventAccept (snd r) <-> recognitionIsDisabled d = true)).
Proof.
  intros now event d Hs He Hv r. subst r.
  destruct d as [en vi ma st sd ti di dt dts md mt ct im tr tiv at_ sp ssp
                 dsp pdsp pp psp sdv].
  cbn [status q_enabled q_visible] in *. subst st en vi.
  match goal with |- context [touchEvent ?n ?e ?x] =>
    destruct (touchEvent n e x) as [d' log] eqn:R end.
  cbn [fst snd].
  unfold touchEvent in R. cbn [q_enabled q_visible negb orb] in R.
  apply andThen_inv in R. destruct R as (d1 & l1 & l2 & R & R2 & ->).
  cbv beta in R. cbn [status] in R.
  unfold touchEvent_absent in R.
  pose proof (hasPressed_pressedCount event) as Hcount.
  pose proof (findNewTouchPoint_allGood event None) as Hall.
  rewrite Nat.add_0_r in Hall.
  destruct (hasPressed event) eqn:Hp; cbn [negb] in R.
  2:{ inv_run. cbn. split.
      - split; [intros H; now contradiction H|].
        intros (H & _). assert (1 <= pressedCount event)%nat by lia.
        apply Hcount in H0. discriminate H0.
      - intros H. now contradiction H. }
  assert (Hc : (1 <= pressedCount event)%nat) by (now apply Hcount).
  match type of R with context [isWithinTouchCompositionWindow ?n ?x] =>
    set (D := x) in * end.
  destruct (isWithinTouchCompositionWindow now D) eqn:Hw;
    cbn [negb] in R.
  { rewrite findNewTouchPoint_stopped in R. inv_run. cbn. split.
    - split; [intros H; now contradiction H|]. intros (_ & H & _).
      discriminate H.
    - intros H. now contradiction H. }
  destruct (findNewTouchPoint event true None)
    as [allGood newTouchPoint] eqn:HF.
  cbn [fst] in Hall. subst allGood.
  destruct (pressedCount event <=? 1)%nat eqn:Hle.
  2:{ inv_run. cbn. apply Nat.leb_gt in Hle. split.
      - split; [intros H; now contradiction H|]. intros (H & _). lia.
      - intros H. now contradiction H. }
  apply Nat.leb_le in Hle.
  destruct (sanityCheckRecognitionProperties D) eqn:Hsane; cbn [negb] in R.
  2:{ inv_run. cbn. split.
      - split; [intros H; now contradiction H|]. intros (_ & _ & H).
        discriminate H.
      - intros H. now contradiction H. }
  destruct newTouchPoint as [tp|];
    [|apply findNewTouchPoint_none in HF; congruence].
  apply findNewTouchPoint_found in HF.
  destruct HF as [[_ HF]|[HF _]]; [|discriminate HF].
  subst D. inv_run.
  all: use_facts; cbn.
  all: repeat match goal with
              | H : recognitionIsDisabled _ = _ |- _ =>
                  unfold recognitionIsDisabled in H; cbn in H
              end.
  all: unfold recognitionIsDisabled; cbn.
  all: (split;
        [split;
         [intros _; split; [lia | split; reflexivity]
         | intros _; discriminate]|]).
  all: intros _; exists tp; repeat split; try assumption; try reflexivity.
  all: try solve [symmetry; assumption].
  all: try match goal with
            | H : ?c = _ |- context [?c] => rewrite H
            end.
  all: try reflexivity.
  all: try (rewrite !in_app_iff; cbn; intuition discriminate).
  all: try (intros Hin; discriminate Hin).
  all: intros Hin; exfalso; rewrite !in_app_iff in Hin; cbn in Hin.
  all: repeat match goal with
              | K : _ \/ _ |- _ => destruct K as [K|K]
              end.
  all: try discriminate Hin; try contradiction.
  all: match goal with
       | G : forall e, In e ?l -> _, K : In _ ?l |- _ =>
           destruct (G _ K) as [G'|[s G']]; discriminate G'
       end.
Qed.

Lemma press_starts_gesture_witness :
  status exampleGesture = WaitingForTouch
  /\ q_enabled exampleGesture = true
  /\ q_visible exampleGesture = true
  /\ (status (fst (touchEvent 0 [touchAt 1 TouchPointPressed 5 5]
                              exampleGesture)) <> WaitingForTouch
      <-> pressedCount [touchAt 1 TouchPointPressed 5 5] = 1%nat
          /\ isWithinTouchCompositionWindow 0 exampleGesture = false
          /\ sanityCheckRecognitionProperties exampleGesture = true).
Proof.
  assert (H0 : status exampleGesture = WaitingForTouch)
    by (vm_compute; reflexivity).
  assert (H1 : q_enabled exampleGesture = true) by (vm_compute; reflexivity).
  assert (H2 : q_visible exampleGesture = true) by (vm_compute; reflexivity).
  split; [exact H0|]. split; [exact H1|]. split; [exact H2|].
  exact (proj1 (press_starts_gesture
                  0 [touchAt 1 TouchPointPressed 5 5] exampleGesture
                  H0 H1 H2)).
Defined.

(** ** Configuration calls and deliveries *)

Lemma deliver_sameConfiguration e d :
  sameConfiguration d (fst (deliver e d)).
Proof.
  destruct (deliver_summary e d) as [_ _ _ _ _ _ _ _ _ Hconfig _].
  exact Hconfig.
Qed.

Lemma deliverAll_sameConfiguration es :
  forall d, sameConfiguration d (fst (deliverAll es d)).
Proof.
  induction es as [|e es IH]; intros d.
  - cbn. unfold sameConfiguration. repeat split.
  - cbn [deliverAll]. rewrite andThen_run. cbn [fst].
    pose proof (deliver_sameConfiguration e d) as H1.
    pose proof (IH (fst (deliver e d))) as H2.
    unfold sameConfiguration in *.
    destruct H1 as (A1 & A2 & A3 & A4 & A5 & A6 & A7 & A8).
    destruct H2 as (B1 & B2 & B3 & B4 & B5 & B6 & B7 & B8).
    repeat split; etransitivity; eassumption.
Qed.

(** X13. No delivery changes the configuration: after any sequence of touch
    events, unowned touch events, ownership events, timer expiries and
    changes of [enabled] or [visible], the direction, the distance
    threshold and its square, the maximum distance, the maximum time, the
    timer interval, the composition time and the immediate-recognition flag
    are what they were. *)
Theorem deliveries_keep_configuration :
  forall (es : list Delivery) (d0 : UCDragGesturePrivate),
    let d := fst (deliverAll es d0) in
    direction d = direction d0
    /\ distanceThreshold d = distanceThreshold d0
    /\ distanceThresholdSquared d = distanceThresholdSquared d0
    /\ maxDistance d = maxDistance d0
    /\ maxTime d = maxTime d0
    /\ recognitionTimerInterval d = recognitionTimerInterval d0
    /\ compositionTime d = compositionTime d0
    /\ immediateRecognition d = immediateRecognition d0.
Proof.
  intros es d0 d. subst d. apply (deliverAll_sameConfiguration es d0).
Qed.

(** X14. [removeTimeConstraints] switches the composition window off for
    good: afterwards, whatever is delivered, no time is within the window
    (so a press is never declined and a sample never deferred for it), and
    the maximum time is one hour. *)
Theorem removeTimeConstraints_disables_window :
  forall (es : list Delivery) (now : Z) (d0 : UCDragGesturePrivate),
    let d := fst (deliverAll es (removeTimeConstraints d0)) in
    isWithinTouchCompositionWindow now d = false
    /\ compositionTime d = 0
    /\ maxTime d = 3600000.
Proof.
  intros es now d0 d. subst d.
  destruct (deliverAll_sameConfiguration es (removeTimeConstraints d0))
    as (_ & _ & _ & _ & Hm & _ & Hc & _).
  assert (Hc0 : compositionTime (removeTimeConstraints d0) = 0).
  { unfold removeTimeConstraints. now destruct (setMaxTime _ d0). }
  assert (Hm0 : maxTime (removeTimeConstraints d0) = 3600000).
  { unfold removeTimeConstraints, setMaxTime.
    destruct (maxTime d0 =? 60 * 60 * 1000) eqn:E; cbn [negb].
    - apply Z.eqb_eq in E. destruct d0; cbn in *. exact E.
    - destruct d0; reflexivity. }
  rewrite Hc0 in Hc. rewrite Hm0 in Hm.
  split; [|split; assumption].
  unfold isWithinTouchCompositionWindow. rewrite Hc. reflexivity.
Qed.

Lemma configure_derivedValuesInStep c d :
  derivedValuesInStep d -> derivedValuesInStep (configure c d).
Proof.
  unfold derivedValuesInStep. intros [Hs Hi].
  destruct c; cbn [configure];
    unfold setDirection, setImmediateRecognition, removeTimeConstraints,
      setPixelsPerMm, setDistanceThreshold, setMaxTime;
    repeat match goal with
           | |- context [if ?c then _ else _] => destruct c
           end;
    destruct d; cbn in *; split; first [assumption | reflexivity].
Qed.

Lemma operate_derivedValuesInStep o d :
  derivedValuesInStep d -> derivedValuesInStep (operate o d).
Proof.
  destruct o as [c|e]; cbn [operate].
  - apply configure_derivedValuesInStep.
  - unfold derivedValuesInStep. intros [Hs Hi].
    destruct (deliver_sameConfiguration e d)
      as (_ & A2 & A3 & _ & A5 & A6 & _ & _).
    rewrite A2, A3, A5, A6. split; assumption.
Qed.

(** X15. The cached values stay in step: in every recognizer reached from a
    freshly constructed one by configuration calls and deliveries in any
    order, [distanceThresholdSquared] is the square of [distanceThreshold]
    and the interval of the recognition timer is [maxTime]. *)
Theorem derived_values_stay_in_step :
  forall (os : list Operation) (mapToScene : QPointF -> QPointF)
         (maxDistance0 maxDelta0 : qreal) (capacity : nat),
    let d :=
      operateAll os
        (UCDragGesturePrivate_new mapToScene maxDistance0 maxDelta0 capacity) in
    distanceThresholdSquared d
    = (distanceThreshold d * distanceThreshold d)%float
    /\ recognitionTimerInterval d = maxTime d.
Proof.
  intros os mapToScene maxDistance0 maxDelta0 capacity.
  assert (H0 : derivedValuesInStep
                 (UCDragGesturePrivate_new mapToScene maxDistance0 maxDelta0
                                           capacity)).
  { split; reflexivity. }
  revert H0. unfold operateAll.
  generalize (UCDragGesturePrivate_new mapToScene maxDistance0 maxDelta0
                                       capacity).
  induction os as [|o os IH]; intros d H0; cbn [fold_left].
  - exact H0.
  - apply IH. apply operate_derivedValuesInStep. exact H0.
Qed.

(** ** The target touch point *)

(** X16. [fetchTargetTouchPoint] returns the first touch point of the event
    that carries the id it looks for, and nothing exactly when no touch
    point of the event carries it. *)
Theorem fetchTargetTouchPoint_first_with_id :
  forall (event : QTouchEvent) (id : Z),
    match fetchTargetTouchPoint event id with
    | Some tp =>
        exists before after,
          event = before ++ tp :: after
          /\ tp_id tp = id
          /\ forall p, In p before -> tp_id p <> id
    | None => forall p, In p event -> tp_id p <> id
    end.
Proof.
  intros event id. induction event as [|tp rest IH]; cbn.
  - intros p [].
  - destruct (tp_id tp =? id) eqn:E.
    + exists [], rest. apply Z.eqb_eq in E.
      repeat split; auto; intros p [].
    + apply Z.eqb_neq in E.
      destruct (fetchTargetTouchPoint rest id) as [tp'|].
      * destruct IH as (before & after & -> & Hid & Hb).
        exists (tp :: before), after. repeat split; auto.
        intros p [Hp|Hp]; [subst p; exact E | apply Hb; exact Hp].
      * intros p [Hp|Hp]; [subst p; exact E | apply IH; exact Hp].
Qed.

(** ** Lookups in the registry of active touches *)

Lemma touchStartTime_forEach id a : forall acc,
  Pool.forEach (fun touchInfo result =>
                  if id =? ati_id touchInfo
                  then (startTime touchInfo, false)
                  else (result, true)) a acc
  = match find (fun r => id =? ati_id r) (Pool.records a) with
    | Some r => startTime r
    | None => acc
    end.
Proof.
  induction a as [|[x|] rest IH]; intros acc; cbn.
  - reflexivity.
  - destruct (id =? ati_id x); [reflexivity | apply IH].
  - apply IH.
Qed.

(** X17. [touchStartTime] returns the start time of the first active record
    of the touch, when start times are timestamps (not negative); for a
    touch without a record the assertion fails and there is no result. *)
Theorem touchStartTime_of_first_record :
  forall (id : Z) (a : ActiveTouchesInfo.t),
    (forall r, In r (Pool.records a) -> 0 <= startTime r) ->
    ActiveTouchesInfo.touchStartTime id a
    = option_map startTime (find (fun r => id =? ati_id r) (Pool.records a)).
Proof.
  intros id a Hpos. unfold ActiveTouchesInfo.touchStartTime.
  rewrite touchStartTime_forEach.
  destruct (find (fun r => id =? ati_id r) (Pool.records a)) as [r|] eqn:E;
    cbn [option_map].
  - apply find_some in E. destruct E as [Hin _].
    specialize (Hpos r Hin).
    destruct (startTime r =? -1) eqn:E1; [|reflexivity].
    apply Z.eqb_eq in E1. lia.
  - reflexivity.
Qed.

Lemma touchStartTime_of_first_record_witness :
  let a : ActiveTouchesInfo.t :=
    [Some (mkActiveTouchInfo 1 30); None; Some (mkActiveTouchInfo 2 75)] in
  (forall r, In r (Pool.records a) -> 0 <= startTime r)
  /\ ActiveTouchesInfo.touchStartTime 2 a
     = option_map startTime (find (fun r => 2 =? ati_id r) (Pool.records a)).
Proof.
  intros a.
  assert (Hpos : forall r, In r (Pool.records a) -> 0 <= startTime r).
  { simpl. intros r [<-|[<-|[]]]; simpl; lia. }
  split; [exact Hpos|].
  exact (touchStartTime_of_first_record 2 a Hpos).
Defined.

Lemma removeTouchPoint_absent id a :
  (forall r, In r (Pool.records a) -> ati_id r <> id) ->
  ActiveTouchesInfo.removeTouchPoint id a = a.
Proof.
  induction a as [|[x|] rest IH]; intros H; cbn.
  - reflexivity.
  - destruct (id =? ati_id x) eqn:E.
    + apply Z.eqb_eq in E. exfalso. apply (H x); [left; reflexivity|].
      symmetry; exact E.
    + f_equal. apply IH. intros r Hr. apply H. right. exact Hr.
  - f_equal. apply IH. exact H.
Qed.

(** X18. Pressing and releasing a touch leaves the registry of active
    touches as it was: for a touch that has no record, [removeTouchPoint]
    undoes [addTouchPoint], slot for slot ([Pool] as modelled above). *)
Theorem removeTouchPoint_undoes_addTouchPoint :
  forall (now id : Z) (a : ActiveTouchesInfo.t),
    (forall r, In r (Pool.records a) -> ati_id r <> id) ->
    ActiveTouchesInfo.removeTouchPoint id
      (ActiveTouchesInfo.addTouchPoint now id a) = a.
Proof.
  intros now id a. unfold ActiveTouchesInfo.addTouchPoint.
  induction a as [|[x|] rest IH]; intros H; cbn.
  - reflexivity.
  - destruct (id =? ati_id x) eqn:E.
    + apply Z.eqb_eq in E. exfalso. apply (H x); [left; reflexivity|].
      symmetry; exact E.
    + f_equal. apply IH. intros r Hr. apply H. right. exact Hr.
  - rewrite Z.eqb_refl. reflexivity.
Qed.

Lemma removeTouchPoint_undoes_addTouchPoint_witness :
  let a : ActiveTouchesInfo.t :=
    [Some (mkActiveTouchInfo 1 30); None; Some (mkActiveTouchInfo 2 75)] in
  (forall r, In r (Pool.records a) -> ati_id r <> 3)
  /\ ActiveTouchesInfo.removeTouchPoint 3
       (ActiveTouchesInfo.addTouchPoint 90 3 a) = a.
Proof.
  intros a.
  assert (H : forall r, In r (Pool.records a) -> ati_id r <> 3).
  { simpl. intros r [<-|[<-|[]]]; simpl; lia. }
  split; [exact H|].
  exact (removeTouchPoint_undoes_addTouchPoint 90 3 a H).
Defined.
